(** * Pilluma: the eye-animation commands of [pillumadev.py]

    A shallow embedding of the command state machines of the Pilluma
    robot-eye renderer ([change_face], [curious_mode], [get_constraints],
    [look], [close_eyes], [open_eyes], [blink_eyes]) together with the
    properties its specification states about them.

    Conventions of the embedding:
    - Python [int] is [Z]; [//] with a positive divisor is [Z.div] (floor).
    - The module-level globals of the script form the record [State];
      every command takes the state and returns the new one.
    - A command is a blocking loop ([while True: ... break], or
      [while cond: ...]); a loop is run with a bound on the number of ticks
      and returns [None] when the bound is exhausted, so that termination
      ("some bound suffices") and non-termination ("no bound suffices") are
      both statable.  [time.sleep] has no effect on the state and is left out.
    - [look] with speed ["slow"] steps by the Python float [0.5]; offsets are
      therefore rationals ([Q]).  All values that occur are multiples of 1/2
      of small magnitude, which binary floating point represents exactly, and
      Python compares [int] and [float] by numeric value ([Qeq]). *)

From Stdlib Require Import ZArith QArith String List Bool Lia.
Import ListNotations.

Local Open Scope string_scope.
Local Open Scope Z_scope.

(* ================================================================== *)
(** * Loops with a tick budget *)

Section Loop.
Context {S : Type}.

(** What one pass through a loop body does: go round again, or leave the
    loop ([break], or a false [while] condition). *)
Inductive flow : Type :=
| Continue (s : S)
| Break (s : S).

Variable body : S -> flow.

Fixpoint loop (fuel : nat) (s : S) : option S :=
  match fuel with
  | O => None
  | Datatypes.S fuel' =>
      match body s with
      | Break s' => Some s'
      | Continue s' => loop fuel' s'
      end
  end.

(** The states at the end of each completed pass, where the script sleeps
    for one frame: what the renderer gets to see, tick by tick. *)
Fixpoint loop_trace (fuel : nat) (s : S) : list S :=
  match fuel with
  | O => []
  | Datatypes.S fuel' =>
      match body s with
      | Break _ => []
      | Continue s' => s' :: loop_trace fuel' s'
      end
  end.

End Loop.

Arguments flow S : clear implicits.

(** [while cond: step] as a loop body. *)
Definition while_body {S : Type} (cond : S -> bool) (step : S -> S) (s : S)
  : flow S :=
  if cond s then Continue (step s) else Break s.

(* ================================================================== *)
(** * Configuration, display device and animation state *)

(** [config["eye"]["left"]] and [config["eye"]["right"]]. *)
Record EyeConfig : Type := mkEye {
  width : Z;
  height : Z;
  roundness : Z
}.

(** The parts of the merged TOML configuration that the commands read. *)
Record Config : Type := mkConfig {
  eye_left : EyeConfig;
  eye_right : EyeConfig;
  eye_distance : Z;
  render_fps : Z
}.

(** The luma device: only its size and colour mode are read. *)
Record Device : Type := mkDevice {
  device_width : Z;
  device_height : Z;
  device_mode : string
}.

(** The module-level globals.  [current_closed] is Python [None] or a
    string; the eye heights are never [None] in the script (they start at 0
    and are only assigned integers). *)
Record State : Type := mkState {
  current_bg_color : string;
  current_eye_color : string;
  current_face : string;
  current_curious : bool;
  current_closed : option string;
  current_offset_x : Q;
  current_offset_y : Q;
  eyelid_top_inner_left_height : Z;
  eyelid_top_outer_left_height : Z;
  eyelid_bottom_left_height : Z;
  eyelid_top_inner_right_height : Z;
  eyelid_top_outer_right_height : Z;
  eyelid_bottom_right_height : Z;
  current_eye_height_left : Z;
  current_eye_height_right : Z
}.

Definition set_face (f : string) (st : State) : State :=
  mkState (current_bg_color st) (current_eye_color st) f
    (current_curious st) (current_closed st)
    (current_offset_x st) (current_offset_y st)
    (eyelid_top_inner_left_height st) (eyelid_top_outer_left_height st)
    (eyelid_bottom_left_height st)
    (eyelid_top_inner_right_height st) (eyelid_top_outer_right_height st)
    (eyelid_bottom_right_height st)
    (current_eye_height_left st) (current_eye_height_right st).

Definition set_curious (b : bool) (st : State) : State :=
  mkState (current_bg_color st) (current_eye_color st) (current_face st)
    b (current_closed st)
    (current_offset_x st) (current_offset_y st)
    (eyelid_top_inner_left_height st) (eyelid_top_outer_left_height st)
    (eyelid_bottom_left_height st)
    (eyelid_top_inner_right_height st) (eyelid_top_outer_right_height st)
    (eyelid_bottom_right_height st)
    (current_eye_height_left st) (current_eye_height_right st).

Definition set_closed (c : option string) (st : State) : State :=
  mkState (current_bg_color st) (current_eye_color st) (current_face st)
    (current_curious st) c
    (current_offset_x st) (current_offset_y st)
    (eyelid_top_inner_left_height st) (eyelid_top_outer_left_height st)
    (eyelid_bottom_left_height st)
    (eyelid_top_inner_right_height st) (eyelid_top_outer_right_height st)
    (eyelid_bottom_right_height st)
    (current_eye_height_left st) (current_eye_height_right st).

Definition set_offsets (x y : Q) (st : State) : State :=
  mkState (current_bg_color st) (current_eye_color st) (current_face st)
    (current_curious st) (current_closed st)
    x y
    (eyelid_top_inner_left_height st) (eyelid_top_outer_left_height st)
    (eyelid_bottom_left_height st)
    (eyelid_top_inner_right_height st) (eyelid_top_outer_right_height st)
    (eyelid_bottom_right_height st)
    (current_eye_height_left st) (current_eye_height_right st).

Definition set_eye_height_left (h : Z) (st : State) : State :=
  mkState (current_bg_color st) (current_eye_color st) (current_face st)
    (current_curious st) (current_closed st)
    (current_offset_x st) (current_offset_y st)
    (eyelid_top_inner_left_height st) (eyelid_top_outer_left_height st)
    (eyelid_bottom_left_height st)
    (eyelid_top_inner_right_height st) (eyelid_top_outer_right_height st)
    (eyelid_bottom_right_height st)
    h (current_eye_height_right st).

Definition set_eye_height_right (h : Z) (st : State) : State :=
  mkState (current_bg_color st) (current_eye_color st) (current_face st)
    (current_curious st) (current_closed st)
    (current_offset_x st) (current_offset_y st)
    (eyelid_top_inner_left_height st) (eyelid_top_outer_left_height st)
    (eyelid_bottom_left_height st)
    (eyelid_top_inner_right_height st) (eyelid_top_outer_right_height st)
    (eyelid_bottom_right_height st)
    (current_eye_height_left st) h.

Definition with_heights (hl hr : Z) (st : State) : State :=
  set_eye_height_right hr (set_eye_height_left hl st).

(** The dictionaries [target_eyelid_heights] and [current_eyelid_positions]
    of [change_face]: both have exactly these six string keys, in this
    order. *)
Record EyelidDict : Type := mkEyelids {
  top_inner_left : Z;
  top_outer_left : Z;
  bottom_left : Z;
  top_inner_right : Z;
  top_outer_right : Z;
  bottom_right : Z
}.

Definition set_eyelids (d : EyelidDict) (st : State) : State :=
  mkState (current_bg_color st) (current_eye_color st) (current_face st)
    (current_curious st) (current_closed st)
    (current_offset_x st) (current_offset_y st)
    (top_inner_left d) (top_outer_left d) (bottom_left d)
    (top_inner_right d) (top_outer_right d) (bottom_right d)
    (current_eye_height_left st) (current_eye_height_right st).

Definition eyelids_of (st : State) : EyelidDict :=
  mkEyelids
    (eyelid_top_inner_left_height st) (eyelid_top_outer_left_height st)
    (eyelid_bottom_left_height st)
    (eyelid_top_inner_right_height st) (eyelid_top_outer_right_height st)
    (eyelid_bottom_right_height st).

(** The globals as the script leaves them once [draw_eyes] has started:
    [current_closed is None], so both eye heights are set to the configured
    heights; everything else has its module-level initial value. *)
Definition initial_state (config : Config) : State :=
  mkState "black" "white" "default" false None 0%Q 0%Q
    0 0 0 0 0 0
    (height (eye_left config)) (height (eye_right config)).

(** [DEFAULT_RENDER_CONFIG] and a device of the size of
    [DEFAULT_SCREEN_CONFIG] (128 x 64, monochrome). *)
Definition DEFAULT_RENDER_CONFIG : Config :=
  mkConfig (mkEye 32 32 8) (mkEye 32 32 8) 10 30.

Definition default_device : Device := mkDevice 128 64 "1".

(* ================================================================== *)
(** * Geometry: [get_constraints] *)

(** [int(v * (1 + max_increase))] with [max_increase = 0.2], for eye sizes
    of display scale.  The script computes the product in double precision
    ([float_inflate] below); for every size from 0 to 2048 it truncates to
    the same integer as the exact [6 * v / 5] does
    ([float_inflate_in_range]), and that integer is what this definition
    gives: [int] truncates toward zero, which is [Z.quot].  For integers
    beyond 2^51 or so the rounded product can differ from the exact one. *)
Definition inflate (v : Z) : Z := Z.quot (v * 6) 5.

Definition get_constraints (config : Config) (device : Device) (st : State)
  : Z * Z * Z * Z :=
  let left_eye := eye_left config in
  let right_eye := eye_right config in
  let distance := eye_distance config in
  let eye_width_left := width left_eye in
  let eye_width_right := width right_eye in
  let eye_height_left := height left_eye in
  let eye_height_right := height right_eye in
  let '(eye_width_left, eye_width_right, eye_height_left, eye_height_right) :=
    if current_curious st then
      (inflate eye_width_left, inflate eye_width_right,
       inflate eye_height_left, inflate eye_height_right)
    else
      (eye_width_left, eye_width_right, eye_height_left, eye_height_right) in
  let min_x_offset :=
    - (device_width device / 2 - eye_width_left - distance / 2) in
  let max_x_offset := device_width device / 2 - eye_width_right - distance / 2 in
  let min_y_offset := - (device_height device / 2 - eye_height_left / 2) in
  let max_y_offset := device_height device / 2 - eye_height_right / 2 in
  (min_x_offset, max_x_offset, min_y_offset, max_y_offset).

Definition min_x (c : Z * Z * Z * Z) : Z := let '(a, _, _, _) := c in a.
Definition max_x (c : Z * Z * Z * Z) : Z := let '(_, b, _, _) := c in b.
Definition min_y (c : Z * Z * Z * Z) : Z := let '(_, _, c', _) := c in c'.
Definition max_y (c : Z * Z * Z * Z) : Z := let '(_, _, _, d) := c in d.

(** The size of an eye as the constraints use it: inflated when [curious]. *)
Definition effective (st : State) (v : Z) : Z :=
  if current_curious st then inflate v else v.

(** The formula the specification gives for the horizontal axis,
    [min = -(half - eyeLeft - gap)] and [max = half - eyeRight - gap];
    "analogous for Y" read literally is the same formula at the vertical
    quantities. *)
Definition axis_constraints_spec (half eye_l eye_r gap : Z) : Z * Z :=
  (- (half - eye_l - gap), half - eye_r - gap).

(* ================================================================== *)
(** * [change_face] *)

Definition target_eyelid_heights (new_face : string) (st : State)
  : EyelidDict :=
  if (new_face =? "happy")%string then
    mkEyelids 0 0 (current_eye_height_left st / 2)
              0 0 (current_eye_height_right st / 2)
  else if (new_face =? "angry")%string then
    mkEyelids (current_eye_height_left st / 2) 0 0
              (current_eye_height_right st / 2) 0 0
  else if (new_face =? "tired")%string then
    mkEyelids 0 (current_eye_height_left st / 2) 0
              0 (current_eye_height_right st / 2) 0
  else
    mkEyelids 0 0 0 0 0 0.

(** One key of the [for key in current_eyelid_positions] update. *)
Definition ease (adjustment_speed cur tgt : Z) : Z :=
  if cur <? tgt then Z.min (cur + adjustment_speed) tgt
  else if cur >? tgt then Z.max (cur - adjustment_speed) tgt
  else cur.

(** [any(current[key] != target[key] for key in target)]. *)
Definition eyelids_differ (cur tgt : EyelidDict) : bool :=
  negb (top_inner_left cur =? top_inner_left tgt)
  || negb (top_outer_left cur =? top_outer_left tgt)
  || negb (bottom_left cur =? bottom_left tgt)
  || negb (top_inner_right cur =? top_inner_right tgt)
  || negb (top_outer_right cur =? top_outer_right tgt)
  || negb (bottom_right cur =? bottom_right tgt).

Definition ease_eyelids (adjustment_speed : Z) (cur tgt : EyelidDict)
  : EyelidDict :=
  mkEyelids
    (ease adjustment_speed (top_inner_left cur) (top_inner_left tgt))
    (ease adjustment_speed (top_outer_left cur) (top_outer_left tgt))
    (ease adjustment_speed (bottom_left cur) (bottom_left tgt))
    (ease adjustment_speed (top_inner_right cur) (top_inner_right tgt))
    (ease adjustment_speed (top_outer_right cur) (top_outer_right tgt))
    (ease adjustment_speed (bottom_right cur) (bottom_right tgt)).

(** One tick of the loop: the local dictionary is eased, then copied to the
    six globals. *)
Definition change_face_tick (adjustment_speed : Z) (tgt : EyelidDict)
  (s : EyelidDict * State) : EyelidDict * State :=
  let current_eyelid_positions := ease_eyelids adjustment_speed (fst s) tgt in
  (current_eyelid_positions, set_eyelids current_eyelid_positions (snd s)).

Definition change_face_body (adjustment_speed : Z) (tgt : EyelidDict)
  : EyelidDict * State -> flow (EyelidDict * State) :=
  while_body (fun s => eyelids_differ (fst s) tgt)
             (change_face_tick adjustment_speed tgt).

Definition change_face (fuel : nat) (device : Device) (config : Config)
  (new_face : option string) (st : State) : option State :=
  let new_face :=
    match new_face with None => current_face st | Some f => f end in
  let st := set_face new_face st in
  let target_eyelid_heights := target_eyelid_heights new_face st in
  let adjustment_speed := 2 in
  let current_eyelid_positions := eyelids_of st in
  option_map snd
    (loop (change_face_body adjustment_speed target_eyelid_heights) fuel
          (current_eyelid_positions, st)).

(* ================================================================== *)
(** * [curious_mode] *)

Definition curious_mode (device : Device) (config : Config) (st : State)
  : State :=
  set_curious true st.

(* ================================================================== *)
(** * [look] *)

Definition look_target (direction : string) (c : Z * Z * Z * Z) : Z * Z :=
  let '(min_x_offset, max_x_offset, min_y_offset, max_y_offset) := c in
  if (direction =? "L")%string then (min_x_offset, 0)
  else if (direction =? "R")%string then (max_x_offset, 0)
  else if (direction =? "T")%string then (0, min_y_offset)
  else if (direction =? "B")%string then (0, max_y_offset)
  else if (direction =? "TL")%string then (min_x_offset, min_y_offset)
  else if (direction =? "TR")%string then (max_x_offset, min_y_offset)
  else if (direction =? "BL")%string then (min_x_offset, max_y_offset)
  else if (direction =? "BR")%string then (max_x_offset, max_y_offset)
  else (0, 0).

(** [speed_map.get(speed, 2)] with
    [speed_map = {"slow": 0.5, "medium": 1, "fast": 2}]. *)
Definition look_speed (speed : string) : Q :=
  if (speed =? "slow")%string then (1 # 2)%Q
  else if (speed =? "medium")%string then 1%Q
  else if (speed =? "fast")%string then 2%Q
  else 2%Q.

Definition Qltb (a b : Q) : bool := negb (Qle_bool b a).

(** Python's two-argument [min] and [max] keep the first argument on a tie. *)
Definition py_min (a b : Q) : Q := if Qltb b a then b else a.
Definition py_max (a b : Q) : Q := if Qltb a b then b else a.

Definition ease_offset (adjustment_speed cur tgt : Q) : Q :=
  if Qltb cur tgt then py_min (cur + adjustment_speed)%Q tgt
  else if Qltb tgt cur then py_max (cur - adjustment_speed)%Q tgt
  else cur.

(** One tick: the local dictionary [current_offsets] (a pair here) is eased
    on each axis, then copied to the two globals. *)
Definition look_tick (adjustment_speed : Q) (tgt : Z * Z)
  (s : (Q * Q) * State) : (Q * Q) * State :=
  let '(x, y) := fst s in
  let x := ease_offset adjustment_speed x (inject_Z (fst tgt)) in
  let y := ease_offset adjustment_speed y (inject_Z (snd tgt)) in
  ((x, y), set_offsets x y (snd s)).

Definition look_body (adjustment_speed : Q) (tgt : Z * Z)
  : (Q * Q) * State -> flow ((Q * Q) * State) :=
  while_body
    (fun s => negb (Qeq_bool (fst (fst s)) (inject_Z (fst tgt)))
              || negb (Qeq_bool (snd (fst s)) (inject_Z (snd tgt))))
    (look_tick adjustment_speed tgt).

Definition look (fuel : nat) (device : Device) (config : Config)
  (direction : string) (speed : string) (st : State) : option State :=
  let target := look_target direction (get_constraints config device st) in
  let adjustment_speed := look_speed speed in
  let current_offsets := (current_offset_x st, current_offset_y st) in
  option_map snd
    (loop (look_body adjustment_speed target) fuel (current_offsets, st)).

(** The offsets written to the globals at the end of each tick of [look]. *)
Definition look_trace (fuel : nat) (device : Device) (config : Config)
  (direction : string) (speed : string) (st : State) : list (Q * Q) :=
  let target := look_target direction (get_constraints config device st) in
  map (fun s => (current_offset_x (snd s), current_offset_y (snd s)))
    (loop_trace (look_body (look_speed speed) target) fuel
       ((current_offset_x st, current_offset_y st), st)).

(* ================================================================== *)
(** * [close_eyes], [open_eyes], [blink_eyes] *)

(** [eye in [...]] where [eye] is [None] or a string. *)
Definition eye_in (eye : option string) (l : list string) : bool :=
  match eye with
  | Some e => existsb (String.eqb e) l
  | None => false
  end.

(** [current_closed == s]. *)
Definition closed_is (c : option string) (s : string) : bool :=
  match c with
  | Some x => (x =? s)%string
  | None => false
  end.

(** [{"fast": 4, "medium": 2, "slow": 1}.get(speed, 4)]. *)
Definition movement_speed (speed : string) : Z :=
  if (speed =? "fast")%string then 4
  else if (speed =? "medium")%string then 2
  else if (speed =? "slow")%string then 1
  else 4.

Definition close_eyes_body (eye : option string) (movement_speed : Z)
  (st : State) : flow State :=
  let st :=
    if eye_in eye ["both"; "left"] then
      set_eye_height_left
        (Z.max 2 (current_eye_height_left st - movement_speed)) st
    else st in
  let st :=
    if eye_in eye ["both"; "right"] then
      set_eye_height_right
        (Z.max 2 (current_eye_height_right st - movement_speed)) st
    else st in
  if ((current_eye_height_left st <=? 2) && eye_in eye ["both"; "left"])
     && ((current_eye_height_right st <=? 2) && eye_in eye ["both"; "right"])
  then Break (set_closed (Some "both") st)
  else if (current_eye_height_left st <=? 2) && eye_in eye ["left"]
  then Break (set_closed (Some "left") st)
  else if (current_eye_height_right st <=? 2) && eye_in eye ["right"]
  then Break (set_closed (Some "right") st)
  else Continue st.

Definition close_eyes (fuel : nat) (device : Device) (config : Config)
  (eye : option string) (speed : string) (st : State) : option State :=
  loop (close_eyes_body eye (movement_speed speed)) fuel st.

(** Truthiness of [current_closed]: [None] and the empty string are false. *)
Definition truthy (c : option string) : bool :=
  match c with
  | Some s => negb (s =? EmptyString)%string
  | None => false
  end.

Definition open_eyes_body (left_eye_height_orig right_eye_height_orig : Z)
  (eye : option string) (movement_speed : Z) (st : State) : flow State :=
  let st :=
    if eye_in eye ["both"; "left"] then
      set_eye_height_left
        (Z.min left_eye_height_orig
               (current_eye_height_left st + movement_speed)) st
    else st in
  let st :=
    if eye_in eye ["both"; "right"] then
      set_eye_height_right
        (Z.min right_eye_height_orig
               (current_eye_height_right st + movement_speed)) st
    else st in
  if ((current_eye_height_left st >=? left_eye_height_orig)
      && eye_in eye ["both"; "left"])
     && ((current_eye_height_right st >=? right_eye_height_orig)
         && eye_in eye ["both"; "right"])
  then Break (set_closed None st)
  else if (current_eye_height_left st >=? left_eye_height_orig)
          && eye_in eye ["both"; "left"]
  then Break (set_closed
                (if closed_is (current_closed st) "both"
                 then Some "right" else None) st)
  else if (current_eye_height_right st >=? right_eye_height_orig)
          && eye_in eye ["both"; "right"]
  then Break (set_closed
                (if closed_is (current_closed st) "both"
                 then Some "left" else None) st)
  else Continue st.

(** The heights [open_eyes] writes before its loop, by [current_closed];
    [None] stands for the final [else: return]. *)
Definition open_eyes_reset (left_eye_height_orig right_eye_height_orig : Z)
  (st : State) : option State :=
  if closed_is (current_closed st) "both" then
    Some (set_eye_height_right 2 (set_eye_height_left 2 st))
  else if closed_is (current_closed st) "left" then
    Some (set_eye_height_right right_eye_height_orig
            (set_eye_height_left 2 st))
  else if closed_is (current_closed st) "right" then
    Some (set_eye_height_right 2
            (set_eye_height_left left_eye_height_orig st))
  else None.

Definition open_eyes (fuel : nat) (device : Device) (config : Config)
  (eye : option string) (speed : string) (st : State) : option State :=
  if negb (truthy (current_closed st)) then Some st
  else
    let left_eye_height_orig := height (eye_left config) in
    let right_eye_height_orig := height (eye_right config) in
    match open_eyes_reset left_eye_height_orig right_eye_height_orig st with
    | None => Some st
    | Some st =>
        loop (open_eyes_body left_eye_height_orig right_eye_height_orig
                eye (movement_speed speed)) fuel st
    end.

Definition blink_eyes (fuel : nat) (device : Device) (config : Config)
  (eye : option string) (speed : string) (st : State) : option State :=
  match close_eyes fuel device config eye speed st with
  | Some st => open_eyes fuel device config eye speed st
  | None => None
  end.

(* ================================================================== *)
(** * Command sequences *)

Inductive Command : Type :=
| ChangeFace (new_face : option string)
| CuriousMode
| Look (direction : string) (speed : string)
| CloseEyes (eye : option string) (speed : string)
| OpenEyes (eye : option string) (speed : string)
| BlinkEyes (eye : option string) (speed : string).

Definition run (fuel : nat) (device : Device) (config : Config)
  (c : Command) (st : State) : option State :=
  match c with
  | ChangeFace new_face => change_face fuel device config new_face st
  | CuriousMode => Some (curious_mode device config st)
  | Look direction speed => look fuel device config direction speed st
  | CloseEyes eye speed => close_eyes fuel device config eye speed st
  | OpenEyes eye speed => open_eyes fuel device config eye speed st
  | BlinkEyes eye speed => blink_eyes fuel device config eye speed st
  end.

(** The states in which some sequence of commands, each run to completion,
    leaves the globals. *)
Inductive reachable (device : Device) (config : Config) : State -> Prop :=
| reachable_initial : reachable device config (initial_state config)
| reachable_command : forall st c fuel st',
    reachable device config st ->
    run fuel device config c st = Some st' ->
    reachable device config st'.

(** The constraints as the specification words them: the horizontal formula,
    and its literal analogue (heights for widths, half the screen height for
    half the screen width) on the vertical axis. *)
Definition computeConstraints_spec (config : Config) (device : Device)
  (st : State) : Z * Z * Z * Z :=
  let '(min_x_offset, max_x_offset) :=
    axis_constraints_spec (device_width device / 2)
      (effective st (width (eye_left config)))
      (effective st (width (eye_right config)))
      (eye_distance config / 2) in
  let '(min_y_offset, max_y_offset) :=
    axis_constraints_spec (device_height device / 2)
      (effective st (height (eye_left config)))
      (effective st (height (eye_right config)))
      (eye_distance config / 2) in
  (min_x_offset, max_x_offset, min_y_offset, max_y_offset).

(* ================================================================== *)
(** * Auxiliary definitions for the proofs *)

(** A configuration with 32 x 24 eyes. *)
Definition small_eyes_config : Config :=
  mkConfig (mkEye 32 24 8) (mkEye 32 24 8) 10 30.

(** A configuration with 60 x 20 eyes on the default 128 x 64 device. *)
Definition wide_eyes_config : Config :=
  mkConfig (mkEye 60 20 8) (mkEye 60 20 8) 10 30.

(** Distance of one eyelid field from its target. *)
Definition gap (cur tgt : Z) : nat := Z.to_nat (Z.abs (cur - tgt)).

Definition eyelids_gap (cur tgt : EyelidDict) : nat :=
  (gap (top_inner_left cur) (top_inner_left tgt)
   + gap (top_outer_left cur) (top_outer_left tgt)
   + gap (bottom_left cur) (bottom_left tgt)
   + gap (top_inner_right cur) (top_inner_right tgt)
   + gap (top_outer_right cur) (top_outer_right tgt)
   + gap (bottom_right cur) (bottom_right tgt))%nat.

(** What [change_face] leaves behind: the face recorded, the six eyelid
    fields at their targets. *)
Definition change_face_result (new_face : option string) (st : State) : State :=
  let face := match new_face with None => current_face st | Some f => f end in
  set_eyelids (target_eyelid_heights face (set_face face st)) (set_face face st).

(** What is left of [current_closed] when one eye has been opened. *)
Definition remaining (c : option string) (other : string) : option string :=
  if closed_is c "both" then Some other else None.


(** A configuration whose two eyes have different heights (32 and 16). *)
Definition uneven_config : Config :=
  mkConfig (mkEye 32 32 8) (mkEye 32 16 8) 10 30.

(** The default configuration after [close_eyes(eye="right")]. *)
Definition right_closed_state : State :=
  set_closed (Some "right")
    (set_eye_height_right 2 (initial_state DEFAULT_RENDER_CONFIG)).

(** The default configuration after [close_eyes(eye="both")]. *)
Definition both_closed_state : State :=
  set_closed (Some "both")
    (with_heights 2 2 (initial_state DEFAULT_RENDER_CONFIG)).

(** The default configuration after [close_eyes(eye="right")] and then
    [close_eyes(eye="left")]. *)
Definition left_over_right_state : State :=
  set_closed (Some "left") (set_eye_height_left 2 right_closed_state).

(** The default configuration after [change_face("happy")] and then
    [close_eyes(eye="both")]. *)
Definition happy_closed_state : State :=
  set_closed (Some "both")
    (with_heights 2 2
       (change_face_result (Some "happy")
          (initial_state DEFAULT_RENDER_CONFIG))).

(** The default configuration after [look("TR", "fast")]. *)
Definition looking_TR_state : State :=
  set_offsets 27%Q (-16)%Q (initial_state DEFAULT_RENDER_CONFIG).

(** "[closedState] is consistent with the eye heights", as the
    specification words it. *)
Definition closed_consistent (config : Config) (st : State) : Prop :=
  (current_closed st = Some "both" ->
   current_eye_height_left st = 2 /\ current_eye_height_right st = 2)
  /\ (current_closed st = Some "left" ->
      current_eye_height_left st = 2
      /\ current_eye_height_right st = height (eye_right config))
  /\ (current_closed st = Some "right" ->
      current_eye_height_right st = 2
      /\ current_eye_height_left st = height (eye_left config))
  /\ (current_closed st = None ->
      current_eye_height_left st = height (eye_left config)
      /\ current_eye_height_right st = height (eye_right config)).

(** "Each eyelid height is at most half of [hl] (left eye) or [hr] (right
    eye)". *)
Definition eyelids_within_half (hl hr : Z) (st : State) : Prop :=
  eyelid_top_inner_left_height st <= hl / 2
  /\ eyelid_top_outer_left_height st <= hl / 2
  /\ eyelid_bottom_left_height st <= hl / 2
  /\ eyelid_top_inner_right_height st <= hr / 2
  /\ eyelid_top_outer_right_height st <= hr / 2
  /\ eyelid_bottom_right_height st <= hr / 2.

(** The same against the current eye heights. *)
Definition eyelids_within_half_current (st : State) : Prop :=
  eyelids_within_half (current_eye_height_left st)
    (current_eye_height_right st) st.

Definition eyelids_nonnegative (st : State) : Prop :=
  0 <= eyelid_top_inner_left_height st
  /\ 0 <= eyelid_top_outer_left_height st
  /\ 0 <= eyelid_bottom_left_height st
  /\ 0 <= eyelid_top_inner_right_height st
  /\ 0 <= eyelid_top_outer_right_height st
  /\ 0 <= eyelid_bottom_right_height st.

(** Eye heights between the minimum 2 and the configured height. *)
Definition heights_in_range (config : Config) (st : State) : Prop :=
  2 <= current_eye_height_left st <= height (eye_left config)
  /\ 2 <= current_eye_height_right st <= height (eye_right config).

(** What holds of [current_closed] in every reachable state: ["both"] means
    both eyes at the minimum; with equal configured heights, a single closed
    eye is at the minimum. *)
Definition closed_implies_minimum (config : Config) (st : State) : Prop :=
  (current_closed st = Some "both" ->
   current_eye_height_left st = 2 /\ current_eye_height_right st = 2)
  /\ (height (eye_left config) = height (eye_right config) ->
      (current_closed st = Some "left" -> current_eye_height_left st = 2)
      /\ (current_closed st = Some "right" ->
          current_eye_height_right st = 2)).

(** Eye heights in range and every eyelid field between 0 and half the
    configured height of its eye. *)
Definition eyelids_bounded (config : Config) (st : State) : Prop :=
  heights_in_range config st
  /\ eyelids_nonnegative st
  /\ eyelids_within_half (height (eye_left config))
       (height (eye_right config)) st.

(** A pair of offsets in lowest terms. *)
Definition normalized (p : Q * Q) : Q * Q := (Qred (fst p), Qred (snd p)).

(** The ticks 1, 2, ..., n. *)
Definition ticks (n : nat) : list Z := map Z.of_nat (seq 1 n).

(* ================================================================== *)
(** * Further definitions: results of the eye commands *)

(** What [close_eyes] leaves behind for [eye] one of ["left"], ["right"],
    ["both"]: the selected heights at 2, [current_closed] set to [eye]. *)
Definition close_eyes_result (eye : option string) (st : State) : State :=
  set_closed eye
    (with_heights
       (if eye_in eye ["both"; "left"] then 2 else current_eye_height_left st)
       (if eye_in eye ["both"; "right"] then 2
        else current_eye_height_right st)
       st).

(** [current_closed] is one of the three strings the commands assign. *)
Definition is_closed (st : State) : Prop :=
  In (current_closed st) [Some "both"; Some "left"; Some "right"].

(** A state as the script has it when both eyes are open. *)
Definition fully_open (config : Config) (st : State) : Prop :=
  current_eye_height_left st = height (eye_left config)
  /\ current_eye_height_right st = height (eye_right config)
  /\ current_closed st = None.

(** The default configuration after [close_eyes(eye="left")]. *)
Definition left_closed_state : State :=
  set_closed (Some "left")
    (set_eye_height_left 2 (initial_state DEFAULT_RENDER_CONFIG)).

(* ================================================================== *)
(** * Further definitions: [look] *)

From Stdlib Require Import Lqa Qround.

(** The target of [look] as the script computes it. *)
Definition look_goal (device : Device) (config : Config)
  (direction : string) (st : State) : Z * Z :=
  look_target direction (get_constraints config device st).

(** [cur] is at most [b] away from [tgt]. *)
Definition within (b cur tgt : Q) : Prop :=
  (tgt - b <= cur /\ cur <= tgt + b)%Q.

(** [n] steps of size [step]. *)
Fixpoint reach (n : nat) (step : Q) : Q :=
  match n with
  | O => 0%Q
  | Datatypes.S k => (reach k step + step)%Q
  end.

(** The offsets of a state are numerically those of [p]. *)
Definition offsets_are (p : Z * Z) (st : State) : Prop :=
  (current_offset_x st == inject_Z (fst p))%Q
  /\ (current_offset_y st == inject_Z (snd p))%Q.

(* ================================================================== *)
(** * Further definitions: Python floats and the geometry of [draw_eyes] *)

From Stdlib Require Import Floats.

(** A Python [float] is an IEEE 754 binary64 number with round-to-nearest,
    which is what [PrimFloat] is.  The conversion of an [int] in mixed
    arithmetic: the nearest double, ties to even, whatever the size of the
    integer; [None] where Python raises [OverflowError] (the integer rounds
    beyond the largest double). *)
Definition float_of_Z (z : Z) : option float :=
  match binary_normalize prec emax z 0 false with
  | S754_infinity _ => None
  | sf => Some (SF2Prim sf)
  end.

(** [int(x)]: truncation toward zero; [None] where Python raises (infinities
    and NaN). *)
Definition int_of_float (x : float) : option Z :=
  match Prim2SF x with
  | S754_zero _ => Some 0
  | S754_finite s m e =>
      let magnitude :=
        if 0 <=? e then Z.pos m * 2 ^ e else Z.pos m / 2 ^ (- e) in
      Some (if s then - magnitude else magnitude)
  | S754_infinity _ => None
  | S754_nan => None
  end.

(** [int(v * (1 + max_increase))] of [get_constraints], in floats.  The
    literal [0.2] denotes the double [0x1.999999999999ap-3]. *)
Definition float_inflate (v : Z) : option Z :=
  match float_of_Z v with
  | Some x =>
      int_of_float (PrimFloat.mul x (PrimFloat.add 1 0x1.999999999999ap-3))
  | None => None
  end.

(** The integers 0, 1, ..., n - 1. *)
Definition upto (n : nat) : list Z := map Z.of_nat (seq 0 n).

Definition float_inflate_agrees (v : Z) : bool :=
  match float_inflate v with
  | Some r => r =? inflate v
  | None => false
  end.

(** [current_offset_x] as a float.  The rational is first brought to lowest
    terms, the way a Python number has one representation only.  An integer
    value converts as an [int] does (a float holding an integer is that very
    double); any other offset is already a float, a multiple of 1/2 written
    by a slow [look], and is its numerator over its power-of-two
    denominator, which the division returns exactly. *)
Definition float_of_offset (q : Q) : option float :=
  let q := Qred q in
  match Qden q with
  | xH => float_of_Z (Qnum q)
  | d =>
      match float_of_Z (Qnum q), float_of_Z (Zpos d) with
      | Some n, Some m => Some (PrimFloat.div n m)
      | _, _ => None
      end
  end.

(** [abs(q)]. *)
Definition py_abs (q : Q) : Q := if Qltb q 0 then Qopp q else q.

(** [int(scale_factor * abs(current_offset_x) * dim)]. *)
Definition curious_delta (scale_factor : float) (offset_x : Q) (dim : Z)
  : option Z :=
  match float_of_offset (py_abs offset_x), float_of_Z dim with
  | Some a, Some d =>
      int_of_float (PrimFloat.mul (PrimFloat.mul scale_factor a) d)
  | _, _ => None
  end.

(** [v if v else base]. *)
Definition or_else (v base : Z) : Z := if v =? 0 then base else v.

(** The sizes [draw_eyes] draws with in one frame, in the order width left,
    width right, height left, height right: the base dimensions, the
    curious distortion, the clamp to 2.  [screen_width] is
    [config["screen"]["width"]].  [None] stands for an exception
    ([ZeroDivisionError] for a screen width below 2, [OverflowError] for an
    integer beyond the doubles, or [int] of a non-finite float). *)
Definition eye_sizes (screen_width : Z) (config : Config) (st : State)
  : option (Z * Z * Z * Z) :=
  let left_eye := eye_left config in
  let right_eye := eye_right config in
  let eye_width_left := width left_eye in
  let eye_width_right := width right_eye in
  let eye_height_left :=
    or_else (current_eye_height_left st) (height left_eye) in
  let eye_height_right :=
    or_else (current_eye_height_right st) (height right_eye) in
  let distorted :=
    if current_curious st then
      if screen_width / 2 =? 0 then None
      else
        match float_of_Z (screen_width / 2) with
        | None => None
        | Some half_width =>
            let max_increase := 0x1.999999999999ap-2%float in
            let scale_factor := PrimFloat.div max_increase half_width in
            let delta := curious_delta scale_factor (current_offset_x st) in
            if Qltb (current_offset_x st) 0 then
              match delta (width left_eye), delta (width right_eye),
                    delta eye_height_left, delta eye_height_right with
              | Some dwl, Some dwr, Some dhl, Some dhr =>
                  Some (eye_width_left + dwl, eye_width_right - dwr,
                        eye_height_left + dhl, eye_height_right - dhr)
              | _, _, _, _ => None
              end
            else if Qltb 0 (current_offset_x st) then
              match delta eye_height_left, delta eye_height_right,
                    delta (width left_eye), delta (width right_eye) with
              | Some dhl, Some dhr, Some dwl, Some dwr =>
                  Some (eye_width_left - dwl, eye_width_right + dwr,
                        eye_height_left - dhl, eye_height_right + dhr)
              | _, _, _, _ => None
              end
            else
              Some (eye_width_left, eye_width_right,
                    eye_height_left, eye_height_right)
        end
    else
      Some (eye_width_left, eye_width_right,
            eye_height_left, eye_height_right) in
  match distorted with
  | Some (eye_width_left, eye_width_right,
          eye_height_left, eye_height_right) =>
      Some (Z.max 2 eye_width_left, Z.max 2 eye_width_right,
            Z.max 2 eye_height_left, Z.max 2 eye_height_right)
  | None => None
  end.

(** A rectangle [(x0, y0, x1, y1)]: top left and bottom right corner. *)
Record Box : Type := mkBox {
  box_x0 : Q;
  box_y0 : Q;
  box_x1 : Q;
  box_y1 : Q
}.

Definition left_eye_coords (device : Device) (config : Config)
  (eye_width_left eye_height_left : Z) (st : State) : Box :=
  let distance := eye_distance config in
  mkBox
    (inject_Z (device_width device / 2 - eye_width_left - distance / 2)
     + current_offset_x st)%Q
    (inject_Z (device_height device / 2 - eye_height_left / 2)
     + current_offset_y st)%Q
    (inject_Z (device_width device / 2 - distance / 2)
     + current_offset_x st)%Q
    (inject_Z (device_height device / 2 + eye_height_left / 2)
     + current_offset_y st)%Q.

Definition right_eye_coords (device : Device) (config : Config)
  (eye_width_right eye_height_right : Z) (st : State) : Box :=
  let distance := eye_distance config in
  mkBox
    (inject_Z (device_width device / 2 + distance / 2)
     + current_offset_x st)%Q
    (inject_Z (device_height device / 2 - eye_height_right / 2)
     + current_offset_y st)%Q
    (inject_Z (device_width device / 2 + eye_width_right + distance / 2)
     + current_offset_x st)%Q
    (inject_Z (device_height device / 2 + eye_height_right / 2)
     + current_offset_y st)%Q.

(** The two eye rectangles of one frame of [draw_eyes]. *)
Definition eye_coords (screen_width : Z) (device : Device) (config : Config)
  (st : State) : option (Box * Box) :=
  match eye_sizes screen_width config st with
  | Some (eye_width_left, eye_width_right,
          eye_height_left, eye_height_right) =>
      Some (left_eye_coords device config eye_width_left eye_height_left st,
            right_eye_coords device config eye_width_right eye_height_right
              st)
  | None => None
  end.

(** The rectangle lies on the screen of the device. *)
Definition on_screen (device : Device) (b : Box) : Prop :=
  (0 <= box_x0 b /\ box_x1 b <= inject_Z (device_width device)
   /\ 0 <= box_y0 b /\ box_y1 b <= inject_Z (device_height device))%Q.

(** The offsets lie within the constraints. *)
Definition offsets_within (c : Z * Z * Z * Z) (st : State) : Prop :=
  (inject_Z (min_x c) <= current_offset_x st
   /\ current_offset_x st <= inject_Z (max_x c)
   /\ inject_Z (min_y c) <= current_offset_y st
   /\ current_offset_y st <= inject_Z (max_y c))%Q.


(** A configuration with a left eye 40 high and a right eye 20 high. *)
Definition tall_left_config : Config :=
  mkConfig (mkEye 32 40 8) (mkEye 32 20 8) 10 30.

(** That configuration, looking down as far as the constraints allow. *)
Definition tall_left_looking_down : State :=
  set_offsets 0%Q 22%Q (initial_state tall_left_config).

(* ================================================================== *)
(** * Further definitions: [load_config] *)

(** A TOML value as the script uses it: an integer, a string or a table.
    A table (a Python [dict]) is a list of bindings with distinct keys. *)
#[warnings="-register-all"]
Inductive value : Type :=
| VInt (z : Z)
| VStr (s : string)
| VTable (t : list (string * value)).

Definition dict : Type := list (string * value).

(** [d.get(k)]: the binding of [k], if any. *)
Fixpoint dict_get (k : string) (d : dict) : option value :=
  match d with
  | [] => None
  | (k', v) :: d' => if (k =? k')%string then Some v else dict_get k d'
  end.

(** [d[k] = v]: the binding of [k] is replaced where it stands, a new key is
    added at the end. *)
Fixpoint dict_set (k : string) (v : value) (d : dict) : dict :=
  match d with
  | [] => [(k, v)]
  | (k', v') :: d' =>
      if (k =? k')%string then (k, v) :: d' else (k', v') :: dict_set k v d'
  end.

(** [{**a, **b}]: the bindings of [a], then those of [b] set one after the
    other. *)
Definition dict_merge (a b : dict) : dict :=
  fold_left (fun d kv => dict_set (fst kv) (snd kv) d) b a.

(** [d[k1][k2]] where [d[k1]] is a table; [None] stands for [KeyError] (or
    for an entry that is no table). *)
Definition dict_get2 (k1 k2 : string) (d : dict) : option value :=
  match dict_get k1 d with
  | Some (VTable t) => dict_get k2 t
  | _ => None
  end.

(** What opening and parsing the file gave: no such file, any other
    exception, or the parsed table. *)
Inductive file_result : Type :=
| FileNotFound
| LoadError
| Loaded (config : dict).

(** [load_config]; [None] stands for [sys.exit(1)]. *)
Definition load_config (file : file_result) (default_config : dict)
  : option dict :=
  match file with
  | Loaded config => Some (dict_merge default_config config)
  | FileNotFound => Some default_config
  | LoadError => None
  end.

(** [DEFAULT_RENDER_CONFIG] as the dictionary it is in the script. *)
Definition DEFAULT_RENDER_CONFIG_dict : dict :=
  [("render", VTable [("fps", VInt 30)]);
   ("eye", VTable
      [("distance", VInt 10);
       ("left", VTable [("width", VInt 32); ("height", VInt 32);
                        ("roundness", VInt 8)]);
       ("right", VTable [("width", VInt 32); ("height", VInt 32);
                         ("roundness", VInt 8)])])].

(** An [eyeconfig.toml] that sets only the distance between the eyes. *)
Definition distance_only_file : dict :=
  [("eye", VTable [("distance", VInt 20)])].

(* ================================================================== *)
(** * Further definitions: how long [close_eyes] takes *)

(** How far the selected eyes are above the minimum height 2: the larger of
    the two when both are selected. *)
Definition selected_excess (eye : option string) (st : State) : Z :=
  Z.max
    (if eye_in eye ["both"; "left"] then current_eye_height_left st - 2
     else 0)
    (if eye_in eye ["both"; "right"] then current_eye_height_right st - 2
     else 0).

(* ================================================================== *)
(** * Further definitions: the ticks of [change_face] *)

(** One eased step as the specification words it: [speed] towards the
    target, the last step clamped so that the target is reached exactly. *)
Definition step_toward (speed cur tgt : Z) : Z :=
  if Z.abs (tgt - cur) <=? speed then tgt
  else if cur <? tgt then cur + speed
  else cur - speed.

Definition eyelids_step_toward (speed : Z) (cur tgt : EyelidDict)
  : EyelidDict :=
  mkEyelids
    (step_toward speed (top_inner_left cur) (top_inner_left tgt))
    (step_toward speed (top_outer_left cur) (top_outer_left tgt))
    (step_toward speed (bottom_left cur) (bottom_left tgt))
    (step_toward speed (top_inner_right cur) (top_inner_right tgt))
    (step_toward speed (top_outer_right cur) (top_outer_right tgt))
    (step_toward speed (bottom_right cur) (bottom_right tgt)).

(** Each element of [l] is one eased step of all six fields away from the
    one before it, starting from [prev], and differs from it. *)
Fixpoint eased_chain (speed : Z) (tgt prev : EyelidDict)
  (l : list EyelidDict) : Prop :=
  match l with
  | [] => True
  | d :: l' =>
      d = eyelids_step_toward speed prev tgt /\ d <> prev
      /\ eased_chain speed tgt d l'
  end.

(** The six eyelid globals as [change_face] leaves them at the end of each
    tick, where it sleeps for one frame. *)
Definition change_face_trace (fuel : nat) (device : Device) (config : Config)
  (new_face : option string) (st : State) : list EyelidDict :=
  let new_face :=
    match new_face with None => current_face st | Some f => f end in
  let st := set_face new_face st in
  let target_eyelid_heights := target_eyelid_heights new_face st in
  map (fun s => eyelids_of (snd s))
    (loop_trace (change_face_body 2 target_eyelid_heights) fuel
       (eyelids_of st, st)).

(** A configuration with eyes 30 high: half of it is odd. *)
Definition eyes_30_config : Config :=
  mkConfig (mkEye 32 30 8) (mkEye 32 30 8) 10 30.

(* ================================================================== *)
(** * Further definitions: offsets that doubles hold exactly *)

(** A multiple of 1/2. *)
Definition half_integer (q : Q) : Prop := exists k : Z, (q == k # 2)%Q.

(** A multiple of 1/2 of display scale.  Doubles hold such numbers exactly,
    and add and subtract the steps 0.5, 1 and 2 to and from them without
    rounding, so that the rational arithmetic of [ease_offset] is the
    arithmetic of the script. *)
Definition exact_offset (q : Q) : Prop :=
  half_integer q /\ (- (8192) <= q /\ q <= 8192)%Q.

(** Eye sizes up to 2048, a screen up to 4096 x 4096, a distance up to
    4096. *)
Definition display_sized (config : Config) (device : Device) : Prop :=
  0 <= width (eye_left config) <= 2048
  /\ 0 <= width (eye_right config) <= 2048
  /\ 0 <= height (eye_left config) <= 2048
  /\ 0 <= height (eye_right config) <= 2048
  /\ 0 <= device_width device <= 4096
  /\ 0 <= device_height device <= 4096
  /\ 0 <= eye_distance config <= 4096.
(* ================================================================== *)
(** * Facts about loops *)

Section LoopFacts.
Context {S : Type}.
Variable body : S -> flow S.

Lemma loop_mono :
  forall n m s r,
    loop body n s = Some r -> (n <= m)%nat -> loop body m s = Some r.
Proof.
  induction n as [|n IH]; intros m s r Hrun Hle; [discriminate|].
  destruct m as [|m]; [lia|].
  simpl in *. destruct (body s) as [s'|s']; auto.
  apply IH; [assumption | lia].
Qed.

Lemma loop_det :
  forall n m s r r',
    loop body n s = Some r -> loop body m s = Some r' -> r = r'.
Proof.
  intros n m s r r' Hn Hm.
  apply loop_mono with (m := Nat.max n m) in Hn; [|lia].
  apply loop_mono with (m := Nat.max n m) in Hm; [|lia].
  congruence.
Qed.

(** Partial correctness: an invariant kept by every [Continue] and turned
    into the postcondition by every [Break]. *)
Lemma loop_invariant (I Post : S -> Prop) :
  (forall s s', I s -> body s = Continue s' -> I s') ->
  (forall s s', I s -> body s = Break s' -> Post s') ->
  forall n s r, I s -> loop body n s = Some r -> Post r.
Proof.
  intros Hc Hb. induction n as [|n IH]; intros s r Hs Hrun; [discriminate|].
  simpl in Hrun. destruct (body s) as [s'|s'] eqn:E.
  - eapply IH; [eapply Hc; eassumption | exact Hrun].
  - injection Hrun as <-. eapply Hb; eassumption.
Qed.

(** Termination: a natural-number measure that every [Continue] lowers. *)
Lemma loop_terminates (I : S -> Prop) (measure : S -> nat) :
  (forall s s', I s -> body s = Continue s' ->
                I s' /\ (measure s' < measure s)%nat) ->
  forall s, I s -> exists r, loop body (Datatypes.S (measure s)) s = Some r.
Proof.
  intros Hc s. remember (measure s) as k eqn:Hk.
  revert s Hk. induction k as [k IH] using lt_wf_ind. intros s Hk Hs.
  simpl. destruct (body s) as [s'|s'] eqn:E; [|eauto].
  destruct (Hc _ _ Hs E) as [Hs' Hlt].
  destruct (IH (measure s')) with (s := s') as [r Hr];
    [lia | reflexivity | assumption |].
  exists r. eapply loop_mono; [exact Hr | lia].
Qed.

(** Total correctness, from the two above. *)
Lemma loop_total (I Post : S -> Prop) (measure : S -> nat) :
  (forall s s', I s -> body s = Continue s' ->
                I s' /\ (measure s' < measure s)%nat) ->
  (forall s s', I s -> body s = Break s' -> Post s') ->
  forall s, I s ->
    exists r, loop body (Datatypes.S (measure s)) s = Some r /\ Post r.
Proof.
  intros Hc Hb s Hs.
  destruct (loop_terminates I measure Hc s Hs) as [r Hr].
  exists r. split; [exact Hr|].
  eapply (loop_invariant I Post); eauto.
  intros a b Ha Hab. apply (Hc a b Ha Hab).
Qed.

(** Divergence: an invariant under which the body always continues. *)
Lemma loop_diverges (I : S -> Prop) :
  (forall s, I s -> exists s', body s = Continue s' /\ I s') ->
  forall n s, I s -> loop body n s = None.
Proof.
  intros Hc. induction n as [|n IH]; intros s Hs; [reflexivity|].
  simpl. destruct (Hc s Hs) as [s' [-> Hs']]. auto.
Qed.

End LoopFacts.

(* ================================================================== *)
(** * Movement constraints *)

Lemma inflate_bounds (v : Z) :
  0 <= v -> 5 * inflate v <= 6 * v < 5 * inflate v + 5.
Proof.
  intros Hv. unfold inflate.
  rewrite Z.quot_div_nonneg by lia.
  pose proof (Z.div_mod (v * 6) 5 ltac:(lia)) as Hdm.
  pose proof (Z.mod_pos_bound (v * 6) 5 ltac:(lia)). lia.
Qed.

(** The constraints in closed form, over the sizes as [get_constraints]
    uses them ([effective]: inflated under [current_curious]). *)
Lemma get_constraints_eq :
  forall (config : Config) (device : Device) (st : State),
    get_constraints config device st =
      (- (device_width device / 2
          - effective st (width (eye_left config))
          - eye_distance config / 2),
       device_width device / 2
         - effective st (width (eye_right config))
         - eye_distance config / 2,
       - (device_height device / 2
          - effective st (height (eye_left config)) / 2),
       device_height device / 2
         - effective st (height (eye_right config)) / 2)
    /\ (forall v, effective st v =
                  if current_curious st then Z.quot (v * 6) 5 else v)
    /\ (forall v, current_curious st = true -> 0 <= v ->
                  5 * effective st v <= 6 * v < 5 * effective st v + 5).
Proof.
  intros config device st. unfold get_constraints, effective.
  split; [|split].
  - destruct (current_curious st); reflexivity.
  - intros v. destruct (current_curious st); reflexivity.
  - intros v -> Hv. apply inflate_bounds; assumption.
Qed.

(** C3, counterexample.  With the default configuration the horizontal pair
    is the specified formula, but the vertical pair is not its analogue:
    neither with the distance term nor without it. *)
Lemma get_constraints_vertical_not_analogous :
  get_constraints DEFAULT_RENDER_CONFIG default_device
    (initial_state DEFAULT_RENDER_CONFIG) = (-27, 27, -16, 16)
  /\ computeConstraints_spec DEFAULT_RENDER_CONFIG default_device
       (initial_state DEFAULT_RENDER_CONFIG) = (-27, 27, 5, -5)
  /\ axis_constraints_spec (64 / 2) 32 32 0 = (0, 0)
  /\ get_constraints DEFAULT_RENDER_CONFIG default_device
       (initial_state DEFAULT_RENDER_CONFIG)
     <> computeConstraints_spec DEFAULT_RENDER_CONFIG default_device
          (initial_state DEFAULT_RENDER_CONFIG).
Proof.
  repeat split; try reflexivity. vm_compute. discriminate.
Qed.

(** C4, counterexample.  Eyes 60 wide on a 128-wide device are narrower than
    half the screen, and 20 high is less than half of 64, yet
    [minX = -(64 - 60 - 5) = 1 > 0]. *)
Lemma get_constraints_wide_eyes_positive_min :
  width (eye_left wide_eyes_config) < device_width default_device / 2
  /\ width (eye_right wide_eyes_config) < device_width default_device / 2
  /\ height (eye_left wide_eyes_config) < device_height default_device / 2
  /\ height (eye_right wide_eyes_config) < device_height default_device / 2
  /\ min_x (get_constraints wide_eyes_config default_device
              (initial_state wide_eyes_config)) = 1
  /\ ~ (min_x (get_constraints wide_eyes_config default_device
                 (initial_state wide_eyes_config)) <= 0).
Proof.
  vm_compute. repeat split; try reflexivity; try discriminate.
  intros H. apply H. reflexivity.
Qed.

(** C4, as amended.  When each eye's width as the constraints use it
    (inflated under [current_curious]) plus [distance // 2] fits in half the
    screen width, and each configured eye height is non-negative and smaller
    than half the screen height, then [minX <= 0 <= maxX] and
    [minY <= 0 <= maxY]. *)
Theorem get_constraints_contains_origin :
  forall (config : Config) (device : Device) (st : State),
    effective st (width (eye_left config)) + eye_distance config / 2
      <= device_width device / 2 ->
    effective st (width (eye_right config)) + eye_distance config / 2
      <= device_width device / 2 ->
    0 <= height (eye_left config) < device_height device / 2 ->
    0 <= height (eye_right config) < device_height device / 2 ->
    let c := get_constraints config device st in
    (min_x c <= 0 <= max_x c) /\ (min_y c <= 0 <= max_y c).
Proof.
  intros config device st HwL HwR HhL HhR c. subst c.
  destruct (get_constraints_eq config device st) as [-> _].
  unfold min_x, max_x, min_y, max_y.
  assert (Hh : forall v, 0 <= v -> 0 <= effective st v / 2 <= v).
  { intros v Hv. unfold effective.
    destruct (current_curious st).
    - pose proof (inflate_bounds v Hv).
      split; [apply Z.div_pos; lia|].
      apply Z.div_le_upper_bound; lia.
    - split; [apply Z.div_pos; lia|].
      apply Z.div_le_upper_bound; lia. }
  pose proof (Hh _ (proj1 HhL)). pose proof (Hh _ (proj1 HhR)). lia.
Qed.

Lemma get_constraints_contains_origin_witness :
  let c := get_constraints small_eyes_config default_device
             (initial_state small_eyes_config) in
  (min_x c <= 0 <= max_x c) /\ (min_y c <= 0 <= max_y c).
Proof.
  apply (get_constraints_contains_origin small_eyes_config default_device
           (initial_state small_eyes_config)); vm_compute;
    repeat split; solve [reflexivity | discriminate].
Defined.

(* ================================================================== *)
(** * [change_face]: easing of the eyelids *)

(** One step moves by exactly 2 towards the target, or lands on it when it
    is at most 2 away. *)
Lemma ease_step (cur tgt : Z) :
  ease 2 cur tgt =
    if Z.abs (tgt - cur) <=? 2 then tgt
    else if cur <? tgt then cur + 2 else cur - 2.
Proof.
  unfold ease.
  destruct (Z.ltb_spec cur tgt); destruct (Z.leb_spec (Z.abs (tgt - cur)) 2);
    try lia.
  all: unfold Z.gtb; destruct (Z.compare_spec cur tgt); lia.
Qed.

Lemma ease_between (cur tgt : Z) :
  Z.min cur tgt <= ease 2 cur tgt <= Z.max cur tgt.
Proof.
  rewrite ease_step.
  destruct (Z.leb_spec (Z.abs (tgt - cur)) 2); [lia|].
  destruct (Z.ltb_spec cur tgt); lia.
Qed.

Lemma gap_ease_le (cur tgt : Z) : (gap (ease 2 cur tgt) tgt <= gap cur tgt)%nat.
Proof.
  unfold gap. rewrite ease_step.
  destruct (Z.leb_spec (Z.abs (tgt - cur)) 2); [lia|].
  destruct (Z.ltb_spec cur tgt); lia.
Qed.

Lemma gap_ease_lt (cur tgt : Z) :
  cur <> tgt -> (gap (ease 2 cur tgt) tgt < gap cur tgt)%nat.
Proof.
  intros Hne. unfold gap. rewrite ease_step.
  destruct (Z.leb_spec (Z.abs (tgt - cur)) 2); [lia|].
  destruct (Z.ltb_spec cur tgt); lia.
Qed.

Lemma eyelids_differ_false (cur tgt : EyelidDict) :
  eyelids_differ cur tgt = false -> cur = tgt.
Proof.
  destruct cur, tgt. unfold eyelids_differ. simpl. intros H.
  repeat (apply orb_false_elim in H; destruct H as [H ?]).
  repeat match goal with
         | E : negb (_ =? _) = false |- _ =>
             apply negb_false_iff, Z.eqb_eq in E
         end.
  congruence.
Qed.

Lemma eyelids_differ_true (cur tgt : EyelidDict) :
  eyelids_differ cur tgt = true ->
  (eyelids_gap (ease_eyelids 2 cur tgt) tgt < eyelids_gap cur tgt)%nat.
Proof.
  destruct cur as [a1 a2 a3 a4 a5 a6], tgt as [t1 t2 t3 t4 t5 t6].
  unfold eyelids_differ, eyelids_gap, ease_eyelids. simpl. intros H.
  pose proof (gap_ease_le a1 t1). pose proof (gap_ease_le a2 t2).
  pose proof (gap_ease_le a3 t3). pose proof (gap_ease_le a4 t4).
  pose proof (gap_ease_le a5 t5). pose proof (gap_ease_le a6 t6).
  repeat (apply orb_true_iff in H; destruct H as [H|H]);
    apply negb_true_iff, Z.eqb_neq in H;
    apply gap_ease_lt in H; lia.
Qed.

Lemma set_eyelids_eyelids_of (st : State) : set_eyelids (eyelids_of st) st = st.
Proof. destruct st; reflexivity. Qed.

Lemma set_eyelids_twice (d d' : EyelidDict) (st : State) :
  set_eyelids d' (set_eyelids d st) = set_eyelids d' st.
Proof. reflexivity. Qed.

Lemma eyelids_of_set_eyelids (d : EyelidDict) (st : State) :
  eyelids_of (set_eyelids d st) = d.
Proof. destruct d; reflexivity. Qed.

(** The loop of [change_face] always terminates, with the six fields equal to
    their targets and nothing else touched. *)
Lemma change_face_loop_total (tgt : EyelidDict) (st : State) :
  exists fuel,
    loop (change_face_body 2 tgt) fuel (eyelids_of st, st)
    = Some (tgt, set_eyelids tgt st).
Proof.
  pose (I := fun s : EyelidDict * State => snd s = set_eyelids (fst s) st).
  pose (Post := fun s : EyelidDict * State => s = (tgt, set_eyelids tgt st)).
  destruct (loop_total (change_face_body 2 tgt) I Post
              (fun s => eyelids_gap (fst s) tgt)) with (s := (eyelids_of st, st))
    as [r [Hr Hpost]].
  - intros [d s] s' Hs. unfold change_face_body, while_body. simpl.
    destruct (eyelids_differ d tgt) eqn:E; [|discriminate].
    intros [= <-]. split.
    + unfold I in *. simpl in *. subst s. reflexivity.
    + simpl. apply eyelids_differ_true. exact E.
  - intros [d s] s' Hs. unfold change_face_body, while_body. simpl.
    destruct (eyelids_differ d tgt) eqn:E; [discriminate|].
    intros [= <-]. apply eyelids_differ_false in E. unfold I in Hs.
    simpl in Hs. unfold Post. subst. reflexivity.
  - unfold I. simpl. symmetry. apply set_eyelids_eyelids_of.
  - unfold Post in Hpost. subst r. eauto.
Qed.

Lemma change_face_total (device : Device) (config : Config)
  (new_face : option string) (st : State) :
  exists fuel,
    change_face fuel device config new_face st
    = Some (change_face_result new_face st).
Proof.
  unfold change_face, change_face_result.
  set (face := match new_face with None => current_face st | Some f => f end).
  destruct (change_face_loop_total
              (target_eyelid_heights face (set_face face st))
              (set_face face st)) as [fuel Hfuel].
  exists fuel. rewrite Hfuel. reflexivity.
Qed.

Lemma change_face_mono (device : Device) (config : Config)
  (new_face : option string) (st r : State) (n m : nat) :
  change_face n device config new_face st = Some r -> (n <= m)%nat ->
  change_face m device config new_face st = Some r.
Proof.
  unfold change_face. intros H Hle.
  match type of H with
  | option_map _ (loop ?b _ ?s) = _ => destruct (loop b n s) as [p|] eqn:E
  end; [|discriminate].
  rewrite (loop_mono _ _ _ _ _ E Hle). exact H.
Qed.

Lemma change_face_sound (device : Device) (config : Config)
  (new_face : option string) (st r : State) (n : nat) :
  change_face n device config new_face st = Some r ->
  r = change_face_result new_face st.
Proof.
  intros H.
  destruct (change_face_total device config new_face st) as [m Hm].
  apply change_face_mono with (m := Nat.max n m) in H; [|lia].
  apply change_face_mono with (m := Nat.max n m) in Hm; [|lia].
  congruence.
Qed.

Lemma ease_is_step_toward (cur tgt : Z) :
  ease 2 cur tgt = step_toward 2 cur tgt.
Proof. rewrite ease_step. reflexivity. Qed.

Lemma ease_eyelids_is_step (cur tgt : EyelidDict) :
  ease_eyelids 2 cur tgt = eyelids_step_toward 2 cur tgt.
Proof.
  unfold ease_eyelids, eyelids_step_toward.
  rewrite !ease_is_step_toward. reflexivity.
Qed.

Lemma eyelids_gap_zero (d tgt : EyelidDict) :
  eyelids_differ d tgt = true -> ease_eyelids 2 d tgt <> d.
Proof.
  intros Hd Heq. apply eyelids_differ_true in Hd.
  rewrite Heq in Hd. lia.
Qed.

(** Every tick of the loop is one eased step of the six fields. *)
Lemma change_face_loop_trace_chain (tgt : EyelidDict) :
  forall n d s,
    eased_chain 2 tgt d
      (map (fun s : EyelidDict * State => eyelids_of (snd s))
         (loop_trace (change_face_body 2 tgt) n (d, s))).
Proof.
  induction n as [|n IH]; intros d s; [exact I|].
  simpl. unfold change_face_body at 1, while_body. simpl.
  destruct (eyelids_differ d tgt) eqn:E; [|exact I].
  simpl. rewrite eyelids_of_set_eyelids.
  split; [apply ease_eyelids_is_step|].
  split; [apply eyelids_gap_zero; exact E|].
  apply IH.
Qed.

Lemma last_cons_default {A : Type} (a : A) (l : list A) (d : A) :
  last (a :: l) d = last l a.
Proof.
  revert a d. induction l as [|b l IH]; intros a d; [reflexivity|].
  change (last (a :: b :: l) d) with (last (b :: l) d).
  rewrite (IH b d). symmetry. apply IH.
Qed.

(** A [while] loop returns the last state of its trace. *)
Lemma while_loop_trace_last {S : Type} (cond : S -> bool) (step : S -> S) :
  forall n s r,
    loop (while_body cond step) n s = Some r ->
    last (loop_trace (while_body cond step) n s) s = r.
Proof.
  induction n as [|n IH]; intros s r H; [discriminate|].
  simpl in *. unfold while_body in *.
  destruct (cond s).
  - rewrite last_cons_default. apply IH. exact H.
  - injection H as <-. reflexivity.
Qed.

Lemma last_map {A B : Type} (f : A -> B) (l : list A) (d : A) :
  last (map f l) (f d) = f (last l d).
Proof.
  revert d. induction l as [|a l IH]; intros d; [reflexivity|].
  simpl map. rewrite !last_cons_default. apply IH.
Qed.

(** C2.  From every state, [change_face("happy")] terminates with the bottom
    lids at half the current eye heights and the four top lids at 0, and a
    following [change_face("default")] terminates with all six eyelid fields
    exactly 0; eye heights are not touched.  For every face, the eyelid
    fields shown at the end of each tick of [change_face] form a chain: each
    is the one before it with all six fields moved 2 towards their target,
    or put on the target when it is at most 2 away, and some field moves at
    every tick; the chain ends on the targets.  With eyes 32 high the bottom
    lids of ["happy"] go 2, 4, ..., 16 and those of ["default"] back
    14, ..., 0; with eyes 30 high they go 2, 4, ..., 14, 15. *)
Theorem change_face_happy_then_default :
  forall (device : Device) (config : Config) (st : State),
    (exists fuel st1 st2,
        change_face fuel device config (Some "happy") st = Some st1
        /\ eyelids_of st1 =
             mkEyelids 0 0 (current_eye_height_left st / 2)
                       0 0 (current_eye_height_right st / 2)
        /\ change_face fuel device config (Some "default") st1 = Some st2
        /\ eyelids_of st2 = mkEyelids 0 0 0 0 0 0
        /\ current_eye_height_left st2 = current_eye_height_left st
        /\ current_eye_height_right st2 = current_eye_height_right st)
    /\ (forall new_face fuel,
           eased_chain 2 (eyelids_of (change_face_result new_face st))
             (eyelids_of st)
             (change_face_trace fuel device config new_face st))
    /\ (forall new_face,
           exists fuel r,
             change_face fuel device config new_face st = Some r
             /\ eyelids_of r = eyelids_of (change_face_result new_face st)
             /\ last (change_face_trace fuel device config new_face st)
                  (eyelids_of st)
                = eyelids_of r)
    /\ map bottom_left
         (change_face_trace 9 default_device DEFAULT_RENDER_CONFIG
            (Some "happy") (initial_state DEFAULT_RENDER_CONFIG))
       = [2; 4; 6; 8; 10; 12; 14; 16]
    /\ map bottom_left
         (change_face_trace 9 default_device DEFAULT_RENDER_CONFIG
            (Some "default")
            (change_face_result (Some "happy")
               (initial_state DEFAULT_RENDER_CONFIG)))
       = [14; 12; 10; 8; 6; 4; 2; 0]
    /\ map bottom_right
         (change_face_trace 9 default_device eyes_30_config
            (Some "happy") (initial_state eyes_30_config))
       = [2; 4; 6; 8; 10; 12; 14; 15].
Proof.
  intros device config st.
  split; [|split; [|split; [|split; [|split]]]].
  - destruct (change_face_total device config (Some "happy") st) as [n1 H1].
    set (st1 := change_face_result (Some "happy") st) in *.
    destruct (change_face_total device config (Some "default") st1) as [n2 H2].
    exists (Nat.max n1 n2), st1, (change_face_result (Some "default") st1).
    repeat split.
    + eapply change_face_mono; [exact H1 | lia].
    + eapply change_face_mono; [exact H2 | lia].
  - intros new_face fuel.
    unfold change_face_trace, change_face_result.
    rewrite eyelids_of_set_eyelids.
    apply change_face_loop_trace_chain.
  - intros new_face.
    destruct (change_face_total device config new_face st) as [fuel H].
    exists fuel, (change_face_result new_face st).
    split; [exact H|]. split; [reflexivity|].
    unfold change_face in H. unfold change_face_trace.
    set (face := match new_face with
                 | Some f => f
                 | None => current_face st
                 end) in *.
    set (tgt := target_eyelid_heights face (set_face face st)) in *.
    destruct (loop (change_face_body 2 tgt) fuel
                (eyelids_of (set_face face st), set_face face st))
      as [p|] eqn:E; [|discriminate].
    simpl in H. injection H as Hp.
    apply while_loop_trace_last in E.
    change (eyelids_of st)
      with ((fun s : EyelidDict * State => eyelids_of (snd s))
              (eyelids_of (set_face face st), set_face face st)).
    rewrite last_map. unfold change_face_body. rewrite E. simpl.
    rewrite Hp. reflexivity.
  - vm_compute. reflexivity.
  - vm_compute. reflexivity.
  - vm_compute. reflexivity.
Qed.

(* ================================================================== *)
(** * [close_eyes] and [open_eyes]: the loops *)

Lemma movement_speed_cases (speed : string) :
  movement_speed speed = 4 \/ movement_speed speed = 2
  \/ movement_speed speed = 1.
Proof.
  unfold movement_speed.
  destruct (speed =? "fast")%string; auto.
  destruct (speed =? "medium")%string; auto.
  destruct (speed =? "slow")%string; auto.
Qed.

Lemma movement_speed_pos (speed : string) : 1 <= movement_speed speed.
Proof. destruct (movement_speed_cases speed) as [-> | [-> | ->]]; lia. Qed.

(** Case analysis on the height tests of a loop body. *)
Ltac height_cases :=
  rewrite ?Z.geb_leb;
  rewrite ?andb_true_r, ?andb_false_r;
  repeat match goal with
         | |- context [Z.leb ?a ?b] => destruct (Z.leb_spec a b)
         end;
  simpl.

Ltac leave_loop :=
  first [ discriminate
        | let E := fresh "E" in intros E; injection E as <- ].

Lemma with_heights_same (st : State) :
  with_heights (current_eye_height_left st) (current_eye_height_right st) st
  = st.
Proof. destruct st; reflexivity. Qed.

Lemma close_left_total (ms : Z) (st : State) :
  1 <= ms ->
  exists fuel,
    loop (close_eyes_body (Some "left") ms) fuel st
    = Some (set_closed (Some "left") (set_eye_height_left 2 st)).
Proof.
  intros Hms.
  pose (I := fun s : State => exists h, s = set_eye_height_left h st).
  pose (Post := fun s : State =>
                  s = set_closed (Some "left") (set_eye_height_left 2 st)).
  destruct (loop_total (close_eyes_body (Some "left") ms) I Post
              (fun s => Z.to_nat (current_eye_height_left s - 2)))
    with (s := st) as [r [Hr Hpost]].
  - intros s s' [h ->]. unfold close_eyes_body. simpl.
    height_cases; leave_loop.
    split; [eexists; reflexivity | simpl; lia].
  - intros s s' [h ->]. unfold close_eyes_body, Post. simpl.
    height_cases; leave_loop.
    replace (Z.max 2 (h - ms)) with 2 by lia. reflexivity.
  - exists (current_eye_height_left st). destruct st; reflexivity.
  - unfold Post in Hpost. subst r. eauto.
Qed.

Lemma close_right_total (ms : Z) (st : State) :
  1 <= ms ->
  exists fuel,
    loop (close_eyes_body (Some "right") ms) fuel st
    = Some (set_closed (Some "right") (set_eye_height_right 2 st)).
Proof.
  intros Hms.
  pose (I := fun s : State => exists h, s = set_eye_height_right h st).
  pose (Post := fun s : State =>
                  s = set_closed (Some "right") (set_eye_height_right 2 st)).
  destruct (loop_total (close_eyes_body (Some "right") ms) I Post
              (fun s => Z.to_nat (current_eye_height_right s - 2)))
    with (s := st) as [r [Hr Hpost]].
  - intros s s' [h ->]. unfold close_eyes_body. simpl.
    height_cases; leave_loop.
    split; [eexists; reflexivity | simpl; lia].
  - intros s s' [h ->]. unfold close_eyes_body, Post. simpl.
    height_cases; leave_loop.
    replace (Z.max 2 (h - ms)) with 2 by lia. reflexivity.
  - exists (current_eye_height_right st). destruct st; reflexivity.
  - unfold Post in Hpost. subst r. eauto.
Qed.

Lemma close_both_total (ms : Z) (st : State) :
  1 <= ms ->
  exists fuel,
    loop (close_eyes_body (Some "both") ms) fuel st
    = Some (set_closed (Some "both") (with_heights 2 2 st)).
Proof.
  intros Hms.
  pose (I := fun s : State => exists hl hr, s = with_heights hl hr st).
  pose (Post := fun s : State =>
                  s = set_closed (Some "both") (with_heights 2 2 st)).
  destruct (loop_total (close_eyes_body (Some "both") ms) I Post
              (fun s => (Z.to_nat (current_eye_height_left s - 2)
                         + Z.to_nat (current_eye_height_right s - 2))%nat))
    with (s := st) as [r [Hr Hpost]].
  - intros s s' [hl [hr ->]]. unfold close_eyes_body, with_heights. simpl.
    height_cases; leave_loop.
    all: split; [eexists; eexists; reflexivity | simpl; lia].
  - intros s s' [hl [hr ->]].
    unfold close_eyes_body, Post, with_heights. simpl.
    height_cases; leave_loop.
    replace (Z.max 2 (hl - ms)) with 2 by lia.
    replace (Z.max 2 (hr - ms)) with 2 by lia. reflexivity.
  - exists (current_eye_height_left st), (current_eye_height_right st).
    symmetry. apply with_heights_same.
  - unfold Post in Hpost. subst r. eauto.
Qed.

Lemma open_left_total (bl br ms : Z) (st : State) :
  1 <= ms ->
  exists fuel,
    loop (open_eyes_body bl br (Some "left") ms) fuel st
    = Some (set_closed (remaining (current_closed st) "right")
              (set_eye_height_left bl st)).
Proof.
  intros Hms.
  pose (I := fun s : State => exists h, s = set_eye_height_left h st).
  pose (Post := fun s : State =>
                  s = set_closed (remaining (current_closed st) "right")
                        (set_eye_height_left bl st)).
  destruct (loop_total (open_eyes_body bl br (Some "left") ms) I Post
              (fun s => Z.to_nat (bl - current_eye_height_left s)))
    with (s := st) as [r [Hr Hpost]].
  - intros s s' [h ->]. unfold open_eyes_body. simpl.
    height_cases; leave_loop.
    split; [eexists; reflexivity | simpl; lia].
  - intros s s' [h ->]. unfold open_eyes_body, Post, remaining. simpl.
    height_cases; leave_loop.
    replace (Z.min bl (h + ms)) with bl by lia. reflexivity.
  - exists (current_eye_height_left st). destruct st; reflexivity.
  - unfold Post in Hpost. subst r. eauto.
Qed.

Lemma open_right_total (bl br ms : Z) (st : State) :
  1 <= ms ->
  exists fuel,
    loop (open_eyes_body bl br (Some "right") ms) fuel st
    = Some (set_closed (remaining (current_closed st) "left")
              (set_eye_height_right br st)).
Proof.
  intros Hms.
  pose (I := fun s : State => exists h, s = set_eye_height_right h st).
  pose (Post := fun s : State =>
                  s = set_closed (remaining (current_closed st) "left")
                        (set_eye_height_right br st)).
  destruct (loop_total (open_eyes_body bl br (Some "right") ms) I Post
              (fun s => Z.to_nat (br - current_eye_height_right s)))
    with (s := st) as [r [Hr Hpost]].
  - intros s s' [h ->]. unfold open_eyes_body. simpl.
    height_cases; leave_loop.
    split; [eexists; reflexivity | simpl; lia].
  - intros s s' [h ->]. unfold open_eyes_body, Post, remaining. simpl.
    height_cases; leave_loop.
    replace (Z.min br (h + ms)) with br by lia. reflexivity.
  - exists (current_eye_height_right st). destruct st; reflexivity.
  - unfold Post in Hpost. subst r. eauto.
Qed.

(** With equal configured heights and both eyes at the same height, the two
    eyes arrive together and the loop leaves through its first test. *)
Lemma open_both_total_equal (b ms : Z) (st : State) :
  1 <= ms ->
  current_eye_height_left st = current_eye_height_right st ->
  exists fuel,
    loop (open_eyes_body b b (Some "both") ms) fuel st
    = Some (set_closed None (with_heights b b st)).
Proof.
  intros Hms Heq.
  pose (I := fun s : State => exists h, s = with_heights h h st).
  pose (Post := fun s : State => s = set_closed None (with_heights b b st)).
  destruct (loop_total (open_eyes_body b b (Some "both") ms) I Post
              (fun s => Z.to_nat (b - current_eye_height_left s)))
    with (s := st) as [r [Hr Hpost]].
  - intros s s' [h ->]. unfold open_eyes_body, with_heights. simpl.
    height_cases; leave_loop.
    all: try lia.
    all: split; [eexists; reflexivity | simpl; lia].
  - intros s s' [h ->]. unfold open_eyes_body, Post, with_heights. simpl.
    height_cases; leave_loop.
    all: try lia.
    replace (Z.min b (h + ms)) with b by lia. reflexivity.
  - exists (current_eye_height_left st). rewrite Heq at 2.
    symmetry. apply with_heights_same.
  - unfold Post in Hpost. subst r. eauto.
Qed.

Lemma open_eyes_mono (device : Device) (config : Config)
  (eye : option string) (speed : string) (st r : State) (n m : nat) :
  open_eyes n device config eye speed st = Some r -> (n <= m)%nat ->
  open_eyes m device config eye speed st = Some r.
Proof.
  unfold open_eyes. intros H Hle.
  destruct (negb (truthy (current_closed st))); [exact H|].
  destruct (open_eyes_reset _ _ st); [|exact H].
  eapply loop_mono; eassumption.
Qed.

Lemma blink_eyes_mono (device : Device) (config : Config)
  (eye : option string) (speed : string) (st r : State) (n m : nat) :
  blink_eyes n device config eye speed st = Some r -> (n <= m)%nat ->
  blink_eyes m device config eye speed st = Some r.
Proof.
  unfold blink_eyes, close_eyes. intros H Hle.
  destruct (loop _ n st) as [s1|] eqn:E; [|discriminate].
  rewrite (loop_mono _ _ _ _ _ E Hle).
  eapply open_eyes_mono; eassumption.
Qed.

Lemma blink_eyes_compose (device : Device) (config : Config)
  (eye : option string) (speed : string) (st s1 s2 : State) (n m : nat) :
  close_eyes n device config eye speed st = Some s1 ->
  open_eyes m device config eye speed s1 = Some s2 ->
  blink_eyes (Nat.max n m) device config eye speed st = Some s2.
Proof.
  intros Hc Ho. unfold blink_eyes, close_eyes in *.
  rewrite (loop_mono _ _ _ _ _ Hc (Nat.le_max_l n m)).
  eapply open_eyes_mono; [exact Ho | lia].
Qed.

(** A blink of one eye always restores the open state; a blink of both eyes
    does when the two configured heights are equal. *)
Lemma blink_eyes_round_trip (device : Device) (config : Config)
  (eye : option string) (speed : string) (st : State) :
  current_eye_height_left st = height (eye_left config) ->
  current_eye_height_right st = height (eye_right config) ->
  current_closed st = None ->
  eye = Some "left" \/ eye = Some "right"
  \/ (eye = Some "both"
      /\ height (eye_left config) = height (eye_right config)) ->
  exists fuel, blink_eyes fuel device config eye speed st = Some st.
Proof.
  intros Hl Hr Hc Heye.
  pose proof (movement_speed_pos speed) as Hms.
  destruct Heye as [-> | [-> | [-> Hb]]].
  - destruct (close_left_total _ st Hms) as [n Hn].
    destruct (open_left_total (height (eye_left config))
                (height (eye_right config)) _
                (set_eye_height_right (height (eye_right config))
                   (set_eye_height_left 2
                      (set_closed (Some "left") (set_eye_height_left 2 st))))
                Hms) as [m Hm].
    exists (Nat.max n m).
    eapply blink_eyes_compose; [exact Hn|].
    unfold open_eyes. simpl. unfold open_eyes_reset. simpl.
    rewrite Hm. f_equal. destruct st; simpl in *; subst; reflexivity.
  - destruct (close_right_total _ st Hms) as [n Hn].
    destruct (open_right_total (height (eye_left config))
                (height (eye_right config)) _
                (set_eye_height_right 2
                   (set_eye_height_left (height (eye_left config))
                      (set_closed (Some "right") (set_eye_height_right 2 st))))
                Hms) as [m Hm].
    exists (Nat.max n m).
    eapply blink_eyes_compose; [exact Hn|].
    unfold open_eyes. simpl. unfold open_eyes_reset. simpl.
    rewrite Hm. f_equal. destruct st; simpl in *; subst; reflexivity.
  - destruct (close_both_total _ st Hms) as [n Hn].
    destruct (open_both_total_equal (height (eye_right config)) _
                (with_heights 2 2
                   (set_closed (Some "both") (with_heights 2 2 st)))
                Hms eq_refl) as [m Hm].
    exists (Nat.max n m).
    eapply blink_eyes_compose; [exact Hn|].
    unfold open_eyes. simpl. unfold open_eyes_reset. simpl.
    rewrite Hb. unfold with_heights in *.
    rewrite Hm. f_equal.
    destruct st; simpl in *; subst. rewrite Hb. reflexivity.
Qed.

(* ================================================================== *)
(** * Blinking *)

(** C1, at the failing input.  With a left eye 32 high and a right eye 16
    high, [blink_eyes(eye="both", speed="fast")] from the open state closes
    both eyes and then leaves the opening loop as soon as the right eye is
    back at 16: the left eye is at 18 of 32 and [current_closed] is
    ["left"], whatever the tick budget. *)
Theorem blink_both_uneven_heights_stops_early :
  blink_eyes 9 default_device uneven_config (Some "both") "fast"
    (initial_state uneven_config)
  = Some (set_closed (Some "left")
            (with_heights 18 16 (initial_state uneven_config)))
  /\ (forall fuel r,
         blink_eyes fuel default_device uneven_config (Some "both") "fast"
           (initial_state uneven_config) = Some r ->
         current_closed r = Some "left"
         /\ current_eye_height_left r = 18
         /\ current_eye_height_right r = 16)
  /\ current_eye_height_left (initial_state uneven_config) = 32
  /\ current_eye_height_right (initial_state uneven_config) = 16
  /\ current_closed (initial_state uneven_config) = None.
Proof.
  assert (H9 : blink_eyes 9 default_device uneven_config (Some "both") "fast"
                 (initial_state uneven_config)
               = Some (set_closed (Some "left")
                         (with_heights 18 16 (initial_state uneven_config))))
    by (vm_compute; reflexivity).
  split; [exact H9|]. split; [|repeat split].
  intros fuel r Hr.
  apply blink_eyes_mono with (m := Nat.max fuel 9) in Hr; [|lia].
  apply blink_eyes_mono with (m := Nat.max fuel 9) in H9; [|lia].
  rewrite Hr in H9. injection H9 as ->. repeat split.
Qed.

(* ================================================================== *)
(** * Closing one eye while the other is closed *)

Lemma close_eyes_det (device : Device) (config : Config)
  (eye : option string) (speed : string) (st r r' : State) (n m : nat) :
  close_eyes n device config eye speed st = Some r ->
  close_eyes m device config eye speed st = Some r' ->
  r = r'.
Proof. unfold close_eyes. apply loop_det. Qed.

(** C7, counterexample.  With the right eye closed, closing the left eye
    ends with [current_closed = "left"]; no tick budget makes it ["both"]. *)
Lemma close_left_when_right_closed_not_both :
  current_closed right_closed_state = Some "right"
  /\ current_eye_height_right right_closed_state = 2
  /\ close_eyes 8 default_device DEFAULT_RENDER_CONFIG (Some "left") "fast"
       right_closed_state
     = Some (set_closed (Some "left")
               (set_eye_height_left 2 right_closed_state))
  /\ ~ (exists fuel r,
           close_eyes fuel default_device DEFAULT_RENDER_CONFIG (Some "left")
             "fast" right_closed_state = Some r
           /\ current_closed r = Some "both").
Proof.
  assert (H8 : close_eyes 8 default_device DEFAULT_RENDER_CONFIG (Some "left")
                 "fast" right_closed_state
               = Some (set_closed (Some "left")
                         (set_eye_height_left 2 right_closed_state)))
    by (vm_compute; reflexivity).
  split; [reflexivity|]. split; [reflexivity|]. split; [exact H8|].
  intros [fuel [r [Hr Hboth]]].
  rewrite (close_eyes_det _ _ _ _ _ _ _ _ _ Hr H8) in Hboth.
  discriminate Hboth.
Qed.

(** C7, as amended.  When [current_closed] is ["right"],
    [close_eyes(eye="left")] terminates at every speed with
    [current_closed = "left"]: the requested scope replaces the recorded one.
    The left eye is at the minimum 2 and the right eye height is as it
    was. *)
Theorem close_left_when_right_closed :
  forall (device : Device) (config : Config) (speed : string) (st : State),
    current_closed st = Some "right" ->
    exists fuel r,
      close_eyes fuel device config (Some "left") speed st = Some r
      /\ current_closed r = Some "left"
      /\ current_eye_height_left r = 2
      /\ current_eye_height_right r = current_eye_height_right st.
Proof.
  intros device config speed st _.
  destruct (close_left_total _ st (movement_speed_pos speed)) as [fuel H].
  exists fuel. eexists. split; [exact H|]. repeat split.
Qed.

Lemma close_left_when_right_closed_witness :
  exists fuel r,
    close_eyes fuel default_device DEFAULT_RENDER_CONFIG (Some "left") "slow"
      right_closed_state = Some r
    /\ current_closed r = Some "left"
    /\ current_eye_height_left r = 2
    /\ current_eye_height_right r = current_eye_height_right right_closed_state.
Proof.
  apply (close_left_when_right_closed default_device DEFAULT_RENDER_CONFIG
           "slow" right_closed_state).
  reflexivity.
Defined.

(* ================================================================== *)
(** * Opening eyes that are open *)

Lemma open_eyes_skips_when_none (fuel : nat) (device : Device)
  (config : Config) (eye : option string) (speed : string) (st : State) :
  current_closed st = None ->
  open_eyes fuel device config eye speed st = Some st.
Proof. intros Hc. unfold open_eyes. rewrite Hc. reflexivity. Qed.

(** C9.  When [current_closed] is [None], [open_eyes] returns at once, for
    every [eye] and [speed] and without entering its loop (so with any tick
    budget), and the state it returns is the state it was given. *)
Theorem open_eyes_when_open_is_noop :
  forall (fuel : nat) (device : Device) (config : Config)
         (eye : option string) (speed : string) (st : State),
    current_closed st = None ->
    open_eyes fuel device config eye speed st = Some st.
Proof.
  intros fuel device config eye speed st Hc.
  apply open_eyes_skips_when_none. exact Hc.
Qed.

Lemma open_eyes_when_open_is_noop_witness :
  open_eyes 0 default_device DEFAULT_RENDER_CONFIG (Some "both") "fast"
    (initial_state DEFAULT_RENDER_CONFIG)
  = Some (initial_state DEFAULT_RENDER_CONFIG).
Proof.
  apply (open_eyes_when_open_is_noop 0 default_device DEFAULT_RENDER_CONFIG
           (Some "both") "fast" (initial_state DEFAULT_RENDER_CONFIG)).
  reflexivity.
Defined.

(* ================================================================== *)
(** * An [eye] argument outside left, right, both *)

Lemma eye_in_other (eye : option string) :
  eye <> Some "left" -> eye <> Some "right" -> eye <> Some "both" ->
  eye_in eye ["both"; "left"] = false
  /\ eye_in eye ["both"; "right"] = false
  /\ eye_in eye ["left"] = false
  /\ eye_in eye ["right"] = false.
Proof.
  intros Hl Hr Hb. destruct eye as [e|]; [|repeat split].
  unfold eye_in, existsb.
  destruct (String.eqb_spec e "both") as [->|_]; [congruence|].
  destruct (String.eqb_spec e "left") as [->|_]; [congruence|].
  destruct (String.eqb_spec e "right") as [->|_]; [congruence|].
  repeat split.
Qed.

Lemma close_eyes_body_other (eye : option string) (ms : Z) (st : State) :
  eye <> Some "left" -> eye <> Some "right" -> eye <> Some "both" ->
  close_eyes_body eye ms st = Continue st.
Proof.
  intros Hl Hr Hb.
  destruct (eye_in_other eye Hl Hr Hb) as [E1 [E2 [E3 E4]]].
  unfold close_eyes_body. rewrite E1, E2, E3, E4.
  rewrite !andb_false_r. reflexivity.
Qed.

Lemma open_eyes_body_other (bl br : Z) (eye : option string) (ms : Z)
  (st : State) :
  eye <> Some "left" -> eye <> Some "right" -> eye <> Some "both" ->
  open_eyes_body bl br eye ms st = Continue st.
Proof.
  intros Hl Hr Hb.
  destruct (eye_in_other eye Hl Hr Hb) as [E1 [E2 _]].
  unfold open_eyes_body. rewrite E1, E2.
  rewrite !andb_false_r. reflexivity.
Qed.

(** C10.  For an [eye] that is none of ["left"], ["right"], ["both"]
    (the default [None] included): one pass of either loop body changes
    nothing and does not break; [close_eyes] returns within no tick budget;
    and [open_eyes] returns within no tick budget when [current_closed] is
    ["both"], ["left"] or ["right"], while with [current_closed = None] it
    returns before the loop. *)
Theorem close_open_eyes_never_return_for_other_eye :
  forall (device : Device) (config : Config) (eye : option string)
         (speed : string) (st : State),
    eye <> Some "left" -> eye <> Some "right" -> eye <> Some "both" ->
    (forall s, close_eyes_body eye (movement_speed speed) s = Continue s)
    /\ (forall fuel, close_eyes fuel device config eye speed st = None)
    /\ (forall s,
           open_eyes_body (height (eye_left config))
             (height (eye_right config)) eye (movement_speed speed) s
           = Continue s)
    /\ (In (current_closed st) [Some "both"; Some "left"; Some "right"] ->
        forall fuel, open_eyes fuel device config eye speed st = None)
    /\ (current_closed st = None ->
        forall fuel, open_eyes fuel device config eye speed st = Some st).
Proof.
  intros device config eye speed st Hl Hr Hb.
  split; [|split; [|split; [|split]]].
  - intros s. apply close_eyes_body_other; assumption.
  - intros fuel. unfold close_eyes.
    apply (loop_diverges _ (fun _ => True)); [|exact I].
    intros s _. exists s. split; [|exact I].
    apply close_eyes_body_other; assumption.
  - intros s. apply open_eyes_body_other; assumption.
  - intros Hc fuel. unfold open_eyes.
    assert (Hdiv : forall s,
               loop (open_eyes_body (height (eye_left config))
                       (height (eye_right config)) eye (movement_speed speed))
                 fuel s = None).
    { intros s. apply (loop_diverges _ (fun _ => True)); [|exact I].
      intros s0 _. exists s0. split; [|exact I].
      apply open_eyes_body_other; assumption. }
    simpl in Hc. unfold open_eyes_reset.
    destruct Hc as [<- | [<- | [<- | []]]]; simpl; apply Hdiv.
  - intros Hc fuel. apply open_eyes_skips_when_none. exact Hc.
Qed.

Lemma close_open_eyes_never_return_for_other_eye_witness :
  (forall s, close_eyes_body None (movement_speed "medium") s = Continue s)
  /\ (forall fuel,
         close_eyes fuel default_device DEFAULT_RENDER_CONFIG None "medium"
           both_closed_state = None)
  /\ (forall s,
         open_eyes_body (height (eye_left DEFAULT_RENDER_CONFIG))
           (height (eye_right DEFAULT_RENDER_CONFIG)) None
           (movement_speed "medium") s
         = Continue s)
  /\ (In (current_closed both_closed_state)
          [Some "both"; Some "left"; Some "right"] ->
      forall fuel,
        open_eyes fuel default_device DEFAULT_RENDER_CONFIG None "medium"
          both_closed_state = None)
  /\ (current_closed both_closed_state = None ->
      forall fuel,
        open_eyes fuel default_device DEFAULT_RENDER_CONFIG None "medium"
          both_closed_state = Some both_closed_state).
Proof.
  apply (close_open_eyes_never_return_for_other_eye default_device
           DEFAULT_RENDER_CONFIG None "medium" both_closed_state);
    discriminate.
Defined.

(* ================================================================== *)
(** * What a returning command has done *)

Lemma eye_cases (eye : option string) :
  eye = Some "left" \/ eye = Some "right" \/ eye = Some "both"
  \/ (eye <> Some "left" /\ eye <> Some "right" /\ eye <> Some "both").
Proof.
  destruct eye as [e|]; [|right; right; right; repeat split; discriminate].
  destruct (String.eqb_spec e "left") as [->|Hl]; [auto|].
  destruct (String.eqb_spec e "right") as [->|Hr]; [auto|].
  destruct (String.eqb_spec e "both") as [->|Hb]; [auto|].
  right; right; right. repeat split; congruence.
Qed.

Lemma loop_never_breaks {S : Type} (body : S -> flow S) :
  (forall s, body s = Continue s) ->
  forall n s, loop body n s = None.
Proof.
  intros H n s. apply (loop_diverges body (fun _ => True)); [|exact I].
  intros s0 _. exists s0. split; [apply H | exact I].
Qed.

Lemma look_sound (device : Device) (config : Config)
  (direction speed : string) (st r : State) (n : nat) :
  look n device config direction speed st = Some r ->
  exists x y, r = set_offsets x y st.
Proof.
  unfold look. intros H.
  match type of H with
  | option_map _ (loop ?b _ ?s) = _ => destruct (loop b n s) as [p|] eqn:E
  end; [|discriminate].
  injection H as <-.
  apply (loop_invariant _
           (fun s : (Q * Q) * State => exists x y, snd s = set_offsets x y st)
           (fun s : (Q * Q) * State => exists x y, snd s = set_offsets x y st))
    in E; [exact E | | |].
  - intros [[x y] s] s' [x0 [y0 Hs]]. unfold look_body, while_body.
    destruct (_ || _); [|discriminate]. intros [= <-].
    simpl in *. subst s. eexists. eexists. reflexivity.
  - intros [[x y] s] s' Hs. unfold look_body, while_body.
    destruct (_ || _); [discriminate|]. intros [= <-]. exact Hs.
  - exists (current_offset_x st), (current_offset_y st).
    destruct st; reflexivity.
Qed.

Lemma close_eyes_sound (device : Device) (config : Config)
  (eye : option string) (speed : string) (st r : State) (n : nat) :
  close_eyes n device config eye speed st = Some r ->
  (eye = Some "left"
   /\ r = set_closed (Some "left") (set_eye_height_left 2 st))
  \/ (eye = Some "right"
      /\ r = set_closed (Some "right") (set_eye_height_right 2 st))
  \/ (eye = Some "both"
      /\ r = set_closed (Some "both") (with_heights 2 2 st)).
Proof.
  unfold close_eyes. intros H.
  pose proof (movement_speed_pos speed) as Hms.
  destruct (eye_cases eye) as [-> | [-> | [-> | [Hl [Hr Hb]]]]].
  - left. split; [reflexivity|].
    destruct (close_left_total _ st Hms) as [m Hm].
    exact (loop_det _ _ _ _ _ _ H Hm).
  - right; left. split; [reflexivity|].
    destruct (close_right_total _ st Hms) as [m Hm].
    exact (loop_det _ _ _ _ _ _ H Hm).
  - right; right. split; [reflexivity|].
    destruct (close_both_total _ st Hms) as [m Hm].
    exact (loop_det _ _ _ _ _ _ H Hm).
  - rewrite loop_never_breaks in H; [discriminate|].
    intros s. apply close_eyes_body_other; assumption.
Qed.

(** The opening loop for both eyes, whatever the configured heights: the
    heights only rise, never past the configured ones, and the loop records
    a single closed eye only when it started from ["both"] with the two eyes
    out of step. *)
Lemma open_both_sound (bl br ms : Z) (st r : State) (n : nat) :
  1 <= ms ->
  loop (open_eyes_body bl br (Some "both") ms) n st = Some r ->
  exists hl hr c,
    r = set_closed c (with_heights hl hr st)
    /\ (current_eye_height_left st <= bl ->
        current_eye_height_left st <= hl <= bl)
    /\ (current_eye_height_right st <= br ->
        current_eye_height_right st <= hr <= br)
    /\ (c = None
        \/ (current_closed st = Some "both"
            /\ (c = Some "right" \/ c = Some "left")
            /\ ~ (bl = br
                  /\ current_eye_height_left st
                     = current_eye_height_right st))).
Proof.
  intros Hms.
  pose (I := fun s : State =>
               exists hl hr,
                 s = with_heights hl hr st
                 /\ (current_eye_height_left st <= bl ->
                     current_eye_height_left st <= hl <= bl)
                 /\ (current_eye_height_right st <= br ->
                     current_eye_height_right st <= hr <= br)
                 /\ (bl = br ->
                     current_eye_height_left st = current_eye_height_right st ->
                     hl = hr)).
  pose (Post := fun r : State =>
    exists hl hr c,
      r = set_closed c (with_heights hl hr st)
      /\ (current_eye_height_left st <= bl ->
          current_eye_height_left st <= hl <= bl)
      /\ (current_eye_height_right st <= br ->
          current_eye_height_right st <= hr <= br)
      /\ (c = None
          \/ (current_closed st = Some "both"
              /\ (c = Some "right" \/ c = Some "left")
              /\ ~ (bl = br
                    /\ current_eye_height_left st
                       = current_eye_height_right st)))).
  intros Hrun.
  apply (loop_invariant (open_eyes_body bl br (Some "both") ms) I Post)
    with (n := n) (s := st); [| | | exact Hrun].
  - intros s s' [hl [hr [-> [Hl [Hr Heq]]]]].
    unfold open_eyes_body, with_heights. simpl.
    height_cases; leave_loop.
    exists (Z.min bl (hl + ms)), (Z.min br (hr + ms)).
    split; [reflexivity|]. repeat split; try lia.
  - intros s s' [hl [hr [-> [Hl [Hr Heq]]]]].
    unfold open_eyes_body, with_heights, Post. simpl.
    height_cases; leave_loop.
    all: exists (Z.min bl (hl + ms)), (Z.min br (hr + ms)); eexists;
      (split; [reflexivity|]).
    all: repeat split; try lia.
    + left. reflexivity.
    + destruct (current_closed st) as [c|]; simpl; [|left; reflexivity].
      destruct (String.eqb_spec c "both") as [->|]; [|left; reflexivity].
      right. repeat split; auto. lia.
    + destruct (current_closed st) as [c|]; simpl; [|left; reflexivity].
      destruct (String.eqb_spec c "both") as [->|]; [|left; reflexivity].
      right. repeat split; auto. lia.
  - exists (current_eye_height_left st), (current_eye_height_right st).
    split; [symmetry; apply with_heights_same|]. repeat split; lia.
Qed.

(** Every way [open_eyes] can return. *)
Lemma open_eyes_sound (device : Device) (config : Config)
  (eye : option string) (speed : string) (st r : State) (n : nat) :
  open_eyes n device config eye speed st = Some r ->
  r = st
  \/ (exists s0,
         open_eyes_reset (height (eye_left config))
           (height (eye_right config)) st = Some s0
         /\ ((eye = Some "left"
              /\ r = set_closed (remaining (current_closed st) "right")
                       (set_eye_height_left (height (eye_left config)) s0))
             \/ (eye = Some "right"
                 /\ r = set_closed (remaining (current_closed st) "left")
                          (set_eye_height_right (height (eye_right config))
                             s0))
             \/ (eye = Some "both"
                 /\ loop (open_eyes_body (height (eye_left config))
                            (height (eye_right config)) (Some "both")
                            (movement_speed speed)) n s0 = Some r))).
Proof.
  unfold open_eyes. intros H.
  set (bl := height (eye_left config)) in *.
  set (br := height (eye_right config)) in *.
  pose proof (movement_speed_pos speed) as Hms.
  destruct (negb (truthy (current_closed st))); [left; congruence|].
  destruct (open_eyes_reset bl br st) as [s0|] eqn:Er; [|left; congruence].
  right. exists s0. split; [reflexivity|].
  assert (Hc : current_closed s0 = current_closed st).
  { unfold open_eyes_reset in Er.
    repeat match type of Er with
           | (if ?b then _ else _) = _ => destruct b
           end; try discriminate; injection Er as <-; reflexivity. }
  destruct (eye_cases eye) as [-> | [-> | [-> | [Hl [Hr Hb]]]]].
  - left. split; [reflexivity|].
    destruct (open_left_total bl br _ s0 Hms) as [m Hm].
    rewrite Hc in Hm. exact (loop_det _ _ _ _ _ _ H Hm).
  - right; left. split; [reflexivity|].
    destruct (open_right_total bl br _ s0 Hms) as [m Hm].
    rewrite Hc in Hm. exact (loop_det _ _ _ _ _ _ H Hm).
  - right; right. split; [reflexivity | exact H].
  - rewrite loop_never_breaks in H; [discriminate|].
    intros s. apply open_eyes_body_other; assumption.
Qed.

(* ================================================================== *)
(** * Invariants of command sequences *)

(** Induction over command sequences, one case per primitive effect. *)
Lemma reachable_invariant (device : Device) (config : Config)
  (P : State -> Prop) :
  P (initial_state config) ->
  (forall st new_face, P st -> P (change_face_result new_face st)) ->
  (forall st, P st -> P (set_curious true st)) ->
  (forall st x y, P st -> P (set_offsets x y st)) ->
  (forall st n eye speed r,
      P st -> close_eyes n device config eye speed st = Some r -> P r) ->
  (forall st n eye speed r,
      P st -> open_eyes n device config eye speed st = Some r -> P r) ->
  forall st, reachable device config st -> P st.
Proof.
  intros Hinit Hface Hcur Hlook Hclose Hopen st Hreach.
  induction Hreach as [|st c fuel st' _ IH Hrun]; [exact Hinit|].
  destruct c as [nf| |d sp|eye sp|eye sp|eye sp]; simpl in Hrun.
  - apply change_face_sound in Hrun. subst st'. apply Hface, IH.
  - injection Hrun as <-. apply Hcur, IH.
  - apply look_sound in Hrun. destruct Hrun as [x [y ->]]. apply Hlook, IH.
  - eapply Hclose; eassumption.
  - eapply Hopen; eassumption.
  - unfold blink_eyes in Hrun.
    destruct (close_eyes fuel device config eye sp st) as [s1|] eqn:E;
      [|discriminate].
    eapply Hopen; [|exact Hrun]. eapply Hclose; eassumption.
Qed.

Lemma closed_is_true (c : option string) (s : string) :
  closed_is c s = true -> c = Some s.
Proof.
  destruct c as [x|]; simpl; [|discriminate].
  intros H. apply String.eqb_eq in H. congruence.
Qed.

(** The state [open_eyes] starts its loop from. *)
Lemma open_eyes_reset_cases (bl br : Z) (st s0 : State) :
  open_eyes_reset bl br st = Some s0 ->
  (current_closed st = Some "both" /\ s0 = with_heights 2 2 st)
  \/ (current_closed st = Some "left" /\ s0 = with_heights 2 br st)
  \/ (current_closed st = Some "right" /\ s0 = with_heights bl 2 st).
Proof.
  unfold open_eyes_reset. intros H.
  destruct (closed_is (current_closed st) "both") eqn:Eb.
  { left. apply closed_is_true in Eb. injection H as <-. auto. }
  destruct (closed_is (current_closed st) "left") eqn:El.
  { right; left. apply closed_is_true in El. injection H as <-. auto. }
  destruct (closed_is (current_closed st) "right") eqn:Er; [|discriminate].
  right; right. apply closed_is_true in Er. injection H as <-. auto.
Qed.

Lemma close_eyes_closed_implies_minimum (device : Device) (config : Config)
  (eye : option string) (speed : string) (st r : State) (n : nat) :
  close_eyes n device config eye speed st = Some r ->
  closed_implies_minimum config r.
Proof.
  intros H. apply close_eyes_sound in H.
  destruct H as [[_ ->] | [[_ ->] | [_ ->]]];
    unfold closed_implies_minimum; simpl;
    repeat split; intros; try discriminate; reflexivity.
Qed.

Lemma open_eyes_closed_implies_minimum (device : Device) (config : Config)
  (eye : option string) (speed : string) (st r : State) (n : nat) :
  closed_implies_minimum config st ->
  open_eyes n device config eye speed st = Some r ->
  closed_implies_minimum config r.
Proof.
  intros Hinv H. apply open_eyes_sound in H.
  destruct H as [-> | [s0 [Hreset Hr]]]; [exact Hinv|].
  apply open_eyes_reset_cases in Hreset.
  destruct Hr as [[_ ->] | [[_ ->] | [_ Hloop]]].
  - destruct Hreset as [[Hc ->] | [[Hc ->] | [Hc ->]]]; rewrite Hc;
      unfold closed_implies_minimum, remaining; simpl;
      repeat split; intros; try discriminate; reflexivity.
  - destruct Hreset as [[Hc ->] | [[Hc ->] | [Hc ->]]]; rewrite Hc;
      unfold closed_implies_minimum, remaining; simpl;
      repeat split; intros; try discriminate; reflexivity.
  - apply open_both_sound in Hloop; [|apply movement_speed_pos].
    destruct Hloop as [hl [hr [c [-> [_ [_ Hc]]]]]].
    destruct Hc as [-> | [Hboth [Hc Hne]]].
    + unfold closed_implies_minimum; simpl.
      repeat split; intros; discriminate.
    + destruct Hreset as [[Hst ->] | [[Hst ->] | [Hst ->]]];
        simpl in Hboth; try congruence.
      simpl in Hne.
      unfold closed_implies_minimum; simpl.
      split; [destruct Hc as [-> | ->]; intros; discriminate|].
      intros Heq. exfalso. apply Hne. split; [exact Heq | reflexivity].
Qed.

(** C8, counterexample.  After [close_eyes("right")] and then
    [close_eyes("left")] under the default configuration, [current_closed]
    is ["left"] while the right eye is at 2, not at its configured 32. *)
Lemma closed_state_not_consistent_after_two_closes :
  reachable default_device DEFAULT_RENDER_CONFIG left_over_right_state
  /\ current_closed left_over_right_state = Some "left"
  /\ current_eye_height_right left_over_right_state = 2
  /\ height (eye_right DEFAULT_RENDER_CONFIG) = 32
  /\ ~ closed_consistent DEFAULT_RENDER_CONFIG left_over_right_state.
Proof.
  split; [|split; [reflexivity|split; [reflexivity|split; [reflexivity|]]]].
  - apply reachable_command
      with (st := right_closed_state) (c := CloseEyes (Some "left") "fast")
           (fuel := 8%nat).
    + apply reachable_command
        with (st := initial_state DEFAULT_RENDER_CONFIG)
             (c := CloseEyes (Some "right") "fast") (fuel := 8%nat).
      * apply reachable_initial.
      * vm_compute. reflexivity.
    + vm_compute. reflexivity.
  - intros [_ [Hleft _]]. specialize (Hleft eq_refl).
    destruct Hleft as [_ Hright]. vm_compute in Hright. discriminate Hright.
Qed.

(** C8, as amended.  In every state reachable from the initial state by any
    sequence of commands: [current_closed = "both"] implies that both eye
    heights are at the minimum 2; and when the two configured eye heights
    are equal, [current_closed = "left"] (resp. ["right"]) implies that the
    left (resp. right) eye height is at the minimum 2.  Nothing is stated
    about the other eye of a single closed eye, nor about
    [current_closed = None]. *)
Theorem closed_state_implies_minimum_heights :
  forall (device : Device) (config : Config) (st : State),
    reachable device config st ->
    (current_closed st = Some "both" ->
     current_eye_height_left st = 2 /\ current_eye_height_right st = 2)
    /\ (height (eye_left config) = height (eye_right config) ->
        (current_closed st = Some "left" -> current_eye_height_left st = 2)
        /\ (current_closed st = Some "right" ->
            current_eye_height_right st = 2)).
Proof.
  intros device config st Hreach.
  change (closed_implies_minimum config st).
  revert st Hreach. apply reachable_invariant.
  - unfold closed_implies_minimum; simpl.
    repeat split; intros; discriminate.
  - intros st nf H. exact H.
  - intros st H. exact H.
  - intros st x y H. exact H.
  - intros st n eye speed r _ H.
    eapply close_eyes_closed_implies_minimum; exact H.
  - intros st n eye speed r Hinv H.
    eapply open_eyes_closed_implies_minimum; eassumption.
Qed.

Lemma closed_state_implies_minimum_heights_witness :
  (current_closed both_closed_state = Some "both" ->
   current_eye_height_left both_closed_state = 2
   /\ current_eye_height_right both_closed_state = 2)
  /\ (height (eye_left DEFAULT_RENDER_CONFIG)
      = height (eye_right DEFAULT_RENDER_CONFIG) ->
      (current_closed both_closed_state = Some "left" ->
       current_eye_height_left both_closed_state = 2)
      /\ (current_closed both_closed_state = Some "right" ->
          current_eye_height_right both_closed_state = 2)).
Proof.
  apply (closed_state_implies_minimum_heights default_device
           DEFAULT_RENDER_CONFIG both_closed_state).
  apply reachable_command
    with (st := initial_state DEFAULT_RENDER_CONFIG)
         (c := CloseEyes (Some "both") "fast") (fuel := 8%nat).
  - apply reachable_initial.
  - vm_compute. reflexivity.
Defined.

(* ================================================================== *)
(** * Eyelids against eye heights *)

Lemma half_in_range (h b : Z) : 2 <= h <= b -> 0 <= h / 2 <= b / 2.
Proof.
  intros H. split.
  - apply Z.div_pos; lia.
  - apply Z.div_le_mono; lia.
Qed.

Lemma change_face_eyelids_bounded (config : Config)
  (new_face : option string) (st : State) :
  eyelids_bounded config st ->
  eyelids_bounded config (change_face_result new_face st).
Proof.
  intros [[Hl Hr] _].
  pose proof (half_in_range _ _ Hl). pose proof (half_in_range _ _ Hr).
  assert (0 <= height (eye_left config) / 2) by lia.
  assert (0 <= height (eye_right config) / 2) by lia.
  unfold eyelids_bounded, heights_in_range, eyelids_nonnegative,
    eyelids_within_half, change_face_result, target_eyelid_heights.
  set (face := match new_face with
               | Some f => f
               | None => current_face st
               end).
  destruct (face =? "happy")%string;
    [|destruct (face =? "angry")%string;
      [|destruct (face =? "tired")%string]];
    simpl; repeat split; lia.
Qed.

(** When [change_face] returns, every eyelid field is at most half of the
    eye height of that moment. *)
Lemma change_face_eyelids_within_current (new_face : option string)
  (st : State) :
  0 <= current_eye_height_left st ->
  0 <= current_eye_height_right st ->
  eyelids_within_half_current (change_face_result new_face st).
Proof.
  intros Hl Hr.
  assert (0 <= current_eye_height_left st / 2) by (apply Z.div_pos; lia).
  assert (0 <= current_eye_height_right st / 2) by (apply Z.div_pos; lia).
  unfold eyelids_within_half_current, eyelids_within_half,
    change_face_result, target_eyelid_heights.
  set (face := match new_face with
               | Some f => f
               | None => current_face st
               end).
  destruct (face =? "happy")%string;
    [|destruct (face =? "angry")%string;
      [|destruct (face =? "tired")%string]];
    simpl; repeat split; lia.
Qed.

Lemma close_eyes_eyelids_bounded (device : Device) (config : Config)
  (eye : option string) (speed : string) (st r : State) (n : nat) :
  eyelids_bounded config st ->
  close_eyes n device config eye speed st = Some r ->
  eyelids_bounded config r.
Proof.
  intros [[Hl Hr] [Hn Hw]] H. apply close_eyes_sound in H.
  destruct H as [[_ ->] | [[_ ->] | [_ ->]]];
    (split; [|split; [exact Hn | exact Hw]]);
    unfold heights_in_range; simpl; lia.
Qed.

Lemma open_eyes_eyelids_bounded (device : Device) (config : Config)
  (eye : option string) (speed : string) (st r : State) (n : nat) :
  eyelids_bounded config st ->
  open_eyes n device config eye speed st = Some r ->
  eyelids_bounded config r.
Proof.
  intros Hinv H. apply open_eyes_sound in H.
  destruct H as [-> | [s0 [Hreset Hr]]]; [exact Hinv|].
  destruct Hinv as [[Hhl Hhr] [Hn Hw]].
  apply open_eyes_reset_cases in Hreset.
  assert (Hs0 : heights_in_range config s0
                /\ eyelids_of s0 = eyelids_of st).
  { destruct Hreset as [[_ ->] | [[_ ->] | [_ ->]]];
      unfold heights_in_range; simpl; (split; [lia | reflexivity]). }
  destruct Hs0 as [[Hl0 Hr0] Hlids].
  assert (Hkeep : forall c hl hr,
             2 <= hl <= height (eye_left config) ->
             2 <= hr <= height (eye_right config) ->
             eyelids_bounded config (set_closed c (with_heights hl hr s0))).
  { intros c hl hr Hhl' Hhr'.
    unfold eyelids_bounded, heights_in_range, eyelids_nonnegative,
      eyelids_within_half in *.
    unfold eyelids_of in Hlids. injection Hlids as E1 E2 E3 E4 E5 E6.
    simpl. rewrite E1, E2, E3, E4, E5, E6. tauto. }
  destruct Hr as [[_ ->] | [[_ ->] | [_ Hloop]]].
  - replace (set_eye_height_left (height (eye_left config)) s0)
      with (with_heights (height (eye_left config))
              (current_eye_height_right s0) s0)
      by (destruct s0; reflexivity).
    apply Hkeep; lia.
  - replace (set_eye_height_right (height (eye_right config)) s0)
      with (with_heights (current_eye_height_left s0)
              (height (eye_right config)) s0)
      by (destruct s0; reflexivity).
    apply Hkeep; lia.
  - apply open_both_sound in Hloop; [|apply movement_speed_pos].
    destruct Hloop as [hl [hr [c [-> [Hbl [Hbr _]]]]]].
    apply Hkeep; lia.
Qed.

Lemma reachable_eyelids_bounded (device : Device) (config : Config)
  (st : State) :
  2 <= height (eye_left config) ->
  2 <= height (eye_right config) ->
  reachable device config st ->
  eyelids_bounded config st.
Proof.
  intros Hbl Hbr. revert st. apply reachable_invariant.
  - pose proof (half_in_range 2 _ (conj (Z.le_refl 2) Hbl)).
    pose proof (half_in_range 2 _ (conj (Z.le_refl 2) Hbr)).
    unfold eyelids_bounded, heights_in_range, eyelids_nonnegative,
      eyelids_within_half. simpl. repeat split; lia.
  - intros st nf H. apply change_face_eyelids_bounded. exact H.
  - intros st H. exact H.
  - intros st x y H. exact H.
  - intros st n eye speed r Hinv H.
    eapply close_eyes_eyelids_bounded; eassumption.
  - intros st n eye speed r Hinv H.
    eapply open_eyes_eyelids_bounded; eassumption.
Qed.

(** C6, counterexample.  After [change_face("happy")] and then
    [close_eyes("both")] under the default configuration the bottom lids are
    still 16 while both eyes are 2 high. *)
Lemma eyelids_exceed_half_after_closing :
  reachable default_device DEFAULT_RENDER_CONFIG happy_closed_state
  /\ eyelid_bottom_left_height happy_closed_state = 16
  /\ current_eye_height_left happy_closed_state = 2
  /\ ~ eyelids_within_half_current happy_closed_state.
Proof.
  split; [|split; [reflexivity|split; [reflexivity|]]].
  - apply reachable_command
      with (st := change_face_result (Some "happy")
                    (initial_state DEFAULT_RENDER_CONFIG))
           (c := CloseEyes (Some "both") "fast") (fuel := 8%nat).
    + apply reachable_command
        with (st := initial_state DEFAULT_RENDER_CONFIG)
             (c := ChangeFace (Some "happy")) (fuel := 9%nat).
      * apply reachable_initial.
      * vm_compute. reflexivity.
    + vm_compute. reflexivity.
  - intros [_ [_ [H _]]]. vm_compute in H. apply H. reflexivity.
Qed.

(** C6, as amended.  With configured eye heights of at least 2, in every
    state reachable from the initial state by any sequence of commands each
    of the six eyelid fields is between 0 and half of the configured height
    of the eye it masks (and the eye heights stay between 2 and the
    configured heights); and whenever [change_face] returns from such a
    state, each eyelid field is at most half of the current height of the
    eye it masks. *)
Theorem eyelids_at_most_half_configured_height :
  forall (device : Device) (config : Config) (st : State),
    2 <= height (eye_left config) ->
    2 <= height (eye_right config) ->
    reachable device config st ->
    eyelids_nonnegative st
    /\ eyelids_within_half (height (eye_left config))
         (height (eye_right config)) st
    /\ heights_in_range config st
    /\ (forall fuel new_face r,
           change_face fuel device config new_face st = Some r ->
           eyelids_within_half_current r).
Proof.
  intros device config st Hbl Hbr Hreach.
  destruct (reachable_eyelids_bounded device config st Hbl Hbr Hreach)
    as [[Hl Hr] [Hn Hw]].
  split; [exact Hn|]. split; [exact Hw|]. split; [split; assumption|].
  intros fuel nf r Hrun. apply change_face_sound in Hrun. subst r.
  apply change_face_eyelids_within_current; lia.
Qed.

Lemma eyelids_at_most_half_configured_height_witness :
  eyelids_nonnegative happy_closed_state
  /\ eyelids_within_half (height (eye_left DEFAULT_RENDER_CONFIG))
       (height (eye_right DEFAULT_RENDER_CONFIG)) happy_closed_state
  /\ heights_in_range DEFAULT_RENDER_CONFIG happy_closed_state
  /\ (forall fuel new_face r,
         change_face fuel default_device DEFAULT_RENDER_CONFIG new_face
           happy_closed_state = Some r ->
         eyelids_within_half_current r).
Proof.
  apply (eyelids_at_most_half_configured_height default_device
           DEFAULT_RENDER_CONFIG happy_closed_state).
  - vm_compute. discriminate.
  - vm_compute. discriminate.
  - apply reachable_command
      with (st := change_face_result (Some "happy")
                    (initial_state DEFAULT_RENDER_CONFIG))
           (c := CloseEyes (Some "both") "fast") (fuel := 8%nat).
    + apply reachable_command
        with (st := initial_state DEFAULT_RENDER_CONFIG)
             (c := ChangeFace (Some "happy")) (fuel := 9%nat).
      * apply reachable_initial.
      * vm_compute. reflexivity.
    + vm_compute. reflexivity.
Defined.

(* ================================================================== *)
(** * The [look] scenario of the default configuration *)

(** C5.  On the 128 x 64 device with 32 x 32 eyes, distance 10 and
    [current_curious = False], the constraints are (-27, 27, -16, 16).
    From offsets (0, 0), [look("TR", "fast")] returns after 14 ticks with
    the offsets at [(maxX, minY) = (27, -16)]; tick [k] shows
    [(min(2k, 27), max(-2k, -16))], so the vertical axis stands still from
    tick 8 on while the horizontal one goes on to 27 in steps of 2 with a
    last step of 1.  A following [look("C", "slow")] returns after 54 ticks
    with both offsets equal to 0; tick [k] shows
    [(max(27 - k/2, 0), min(-16 + k/2, 0))]. *)
Theorem look_TR_fast_then_C_slow :
  get_constraints DEFAULT_RENDER_CONFIG default_device
    (initial_state DEFAULT_RENDER_CONFIG) = (-27, 27, -16, 16)
  /\ look 15 default_device DEFAULT_RENDER_CONFIG "TR" "fast"
       (initial_state DEFAULT_RENDER_CONFIG) = Some looking_TR_state
  /\ look 14 default_device DEFAULT_RENDER_CONFIG "TR" "fast"
       (initial_state DEFAULT_RENDER_CONFIG) = None
  /\ (current_offset_x looking_TR_state
      == inject_Z (max_x (get_constraints DEFAULT_RENDER_CONFIG default_device
                            (initial_state DEFAULT_RENDER_CONFIG))))%Q
  /\ (current_offset_y looking_TR_state
      == inject_Z (min_y (get_constraints DEFAULT_RENDER_CONFIG default_device
                            (initial_state DEFAULT_RENDER_CONFIG))))%Q
  /\ map normalized
       (look_trace 15 default_device DEFAULT_RENDER_CONFIG "TR" "fast"
          (initial_state DEFAULT_RENDER_CONFIG))
     = map (fun k => (inject_Z (Z.min (2 * k) 27),
                      inject_Z (Z.max (- 2 * k) (-16))))
         (ticks 14)
  /\ (exists st2,
         look 55 default_device DEFAULT_RENDER_CONFIG "C" "slow"
           looking_TR_state = Some st2
         /\ (current_offset_x st2 == 0)%Q
         /\ (current_offset_y st2 == 0)%Q)
  /\ look 54 default_device DEFAULT_RENDER_CONFIG "C" "slow"
       looking_TR_state = None
  /\ map normalized
       (look_trace 55 default_device DEFAULT_RENDER_CONFIG "C" "slow"
          looking_TR_state)
     = map (fun k => (Qred (Z.max (54 - k) 0 # 2),
                      Qred (Z.min (k - 32) 0 # 2)))
         (ticks 54).
Proof.
  split; [vm_compute; reflexivity|].
  split; [vm_compute; reflexivity|].
  split; [vm_compute; reflexivity|].
  split; [vm_compute; reflexivity|].
  split; [vm_compute; reflexivity|].
  split; [vm_compute; reflexivity|].
  split; [|split; vm_compute; reflexivity].
  assert (H : option_map
                (fun s => normalized (current_offset_x s, current_offset_y s))
                (look 55 default_device DEFAULT_RENDER_CONFIG "C" "slow"
                   looking_TR_state)
              = Some (0%Q, 0%Q)) by (vm_compute; reflexivity).
  destruct (look 55 default_device DEFAULT_RENDER_CONFIG "C" "slow"
              looking_TR_state) as [st2|]; [|discriminate H].
  exists st2. split; [reflexivity|].
  unfold option_map, normalized in H. injection H as Hx Hy.
  split.
  - rewrite <- (Qred_correct (current_offset_x st2)).
    unfold fst in Hx. rewrite Hx. reflexivity.
  - rewrite <- (Qred_correct (current_offset_y st2)).
    unfold snd in Hy. rewrite Hy. reflexivity.
Qed.

(* ================================================================== *)
(** * Further properties of [close_eyes], [open_eyes] and [blink_eyes] *)

(** X1.  For [eye] one of ["left"], ["right"], ["both"], [close_eyes]
    returns from every state and at every speed (also an unknown one, which
    counts as 4): the selected eye heights are exactly 2, also when they
    started below 2, the height of an eye that was not selected is
    untouched, [current_closed] is [eye], and no other global changes. *)
Theorem close_eyes_closes_selected_eyes :
  forall (device : Device) (config : Config) (eye : option string)
         (speed : string) (st : State),
    In eye [Some "left"; Some "right"; Some "both"] ->
    exists fuel,
      close_eyes fuel device config eye speed st
      = Some (close_eyes_result eye st).
Proof.
  intros device config eye speed st Heye.
  pose proof (movement_speed_pos speed) as Hms.
  unfold close_eyes, close_eyes_result.
  simpl in Heye. destruct Heye as [<- | [<- | [<- | []]]]; simpl.
  - destruct (close_left_total _ st Hms) as [n Hn]. exists n.
    rewrite Hn. destruct st; reflexivity.
  - destruct (close_right_total _ st Hms) as [n Hn]. exists n.
    rewrite Hn. destruct st; reflexivity.
  - destruct (close_both_total _ st Hms) as [n Hn]. exists n.
    rewrite Hn. reflexivity.
Qed.

Lemma close_eyes_closes_selected_eyes_witness :
  exists fuel,
    close_eyes fuel default_device DEFAULT_RENDER_CONFIG (Some "right")
      "unknown" (initial_state DEFAULT_RENDER_CONFIG)
    = Some (close_eyes_result (Some "right")
              (initial_state DEFAULT_RENDER_CONFIG)).
Proof.
  apply (close_eyes_closes_selected_eyes default_device DEFAULT_RENDER_CONFIG
           (Some "right") "unknown" (initial_state DEFAULT_RENDER_CONFIG)).
  simpl. auto.
Defined.

Lemma open_eyes_reset_with_heights (bl br a b : Z) (st : State) :
  is_closed st ->
  open_eyes_reset bl br (with_heights a b st) = open_eyes_reset bl br st.
Proof.
  unfold is_closed, open_eyes_reset. simpl.
  intros [<- | [<- | [<- | []]]]; reflexivity.
Qed.

(** X2.  When an eye is recorded as closed, [open_eyes] does not read the
    eye heights it finds: it first overwrites both of them from
    [current_closed] (2 for a closed eye, the configured height for the
    other).  Two states that differ only in their eye heights give the same
    result, for every [eye], [speed] and tick budget. *)
Theorem open_eyes_ignores_incoming_heights :
  forall (fuel : nat) (device : Device) (config : Config)
         (eye : option string) (speed : string) (st : State) (a b : Z),
    is_closed st ->
    open_eyes fuel device config eye speed (with_heights a b st)
    = open_eyes fuel device config eye speed st.
Proof.
  intros fuel device config eye speed st a b Hc.
  unfold open_eyes.
  rewrite open_eyes_reset_with_heights by exact Hc.
  change (current_closed (with_heights a b st)) with (current_closed st).
  unfold is_closed in Hc. simpl in Hc. unfold open_eyes_reset.
  destruct Hc as [Hc | [Hc | [Hc | []]]]; rewrite <- Hc; reflexivity.
Qed.

Lemma open_eyes_ignores_incoming_heights_witness :
  open_eyes 20 default_device DEFAULT_RENDER_CONFIG (Some "both") "fast"
    (with_heights 17 5 both_closed_state)
  = open_eyes 20 default_device DEFAULT_RENDER_CONFIG (Some "both") "fast"
      both_closed_state.
Proof.
  apply (open_eyes_ignores_incoming_heights 20 default_device
           DEFAULT_RENDER_CONFIG (Some "both") "fast" both_closed_state 17 5).
  unfold is_closed. simpl. auto.
Defined.

(** X3.  Opening one eye.  When [current_closed] is ["both"], ["left"] or
    ["right"], [open_eyes(eye="left")] returns at every speed with the left
    eye at its configured height; the right eye is at its configured height
    if [current_closed] was ["left"] and at 2 otherwise; [current_closed]
    becomes ["right"] if it was ["both"] and [None] otherwise, so also when
    only the right eye was closed and still is.  [open_eyes(eye="right")]
    is the mirror image. *)
Theorem open_eyes_single_eye :
  forall (device : Device) (config : Config) (speed : string) (st : State),
    is_closed st ->
    (exists fuel,
        open_eyes fuel device config (Some "left") speed st
        = Some (set_closed (remaining (current_closed st) "right")
                  (with_heights (height (eye_left config))
                     (if closed_is (current_closed st) "left"
                      then height (eye_right config) else 2)
                     st)))
    /\ (exists fuel,
           open_eyes fuel device config (Some "right") speed st
           = Some (set_closed (remaining (current_closed st) "left")
                     (with_heights
                        (if closed_is (current_closed st) "right"
                         then height (eye_left config) else 2)
                        (height (eye_right config))
                        st))).
Proof.
  intros device config speed st Hc.
  pose proof (movement_speed_pos speed) as Hms.
  unfold is_closed in Hc. simpl in Hc.
  split.
  - unfold open_eyes, open_eyes_reset.
    destruct Hc as [Hc | [Hc | [Hc | []]]]; rewrite <- Hc; simpl;
      match goal with
      | |- exists fuel, loop (open_eyes_body ?bl ?br _ ?ms) fuel ?s0 = _ =>
          destruct (open_left_total bl br ms s0 Hms) as [n Hn];
          exists n; rewrite Hn
      end; simpl; rewrite <- Hc; reflexivity.
  - unfold open_eyes, open_eyes_reset.
    destruct Hc as [Hc | [Hc | [Hc | []]]]; rewrite <- Hc; simpl;
      match goal with
      | |- exists fuel, loop (open_eyes_body ?bl ?br _ ?ms) fuel ?s0 = _ =>
          destruct (open_right_total bl br ms s0 Hms) as [n Hn];
          exists n; rewrite Hn
      end; simpl; rewrite <- Hc; reflexivity.
Qed.

Lemma open_eyes_single_eye_witness :
  (exists fuel,
      open_eyes fuel default_device DEFAULT_RENDER_CONFIG (Some "left")
        "medium" right_closed_state
      = Some (set_closed (remaining (current_closed right_closed_state)
                            "right")
                (with_heights (height (eye_left DEFAULT_RENDER_CONFIG))
                   (if closed_is (current_closed right_closed_state) "left"
                    then height (eye_right DEFAULT_RENDER_CONFIG) else 2)
                   right_closed_state)))
  /\ (exists fuel,
         open_eyes fuel default_device DEFAULT_RENDER_CONFIG (Some "right")
           "medium" right_closed_state
         = Some (set_closed (remaining (current_closed right_closed_state)
                               "left")
                   (with_heights
                      (if closed_is (current_closed right_closed_state)
                            "right"
                       then height (eye_left DEFAULT_RENDER_CONFIG) else 2)
                      (height (eye_right DEFAULT_RENDER_CONFIG))
                      right_closed_state))).
Proof.
  apply (open_eyes_single_eye default_device DEFAULT_RENDER_CONFIG "medium"
           right_closed_state).
  unfold is_closed. simpl. auto.
Defined.

(** X4.  From a fully open state (both heights at their configured values,
    [current_closed = None]), [blink_eyes] of one eye returns, at every
    speed, the very state it started from; [blink_eyes(eye="both")] does so
    when the two configured heights are equal. *)
Theorem blink_eyes_restores_open_state :
  forall (device : Device) (config : Config) (eye : option string)
         (speed : string) (st : State),
    fully_open config st ->
    eye = Some "left" \/ eye = Some "right"
    \/ (eye = Some "both"
        /\ height (eye_left config) = height (eye_right config)) ->
    exists fuel, blink_eyes fuel device config eye speed st = Some st.
Proof.
  intros device config eye speed st [Hl [Hr Hc]] Heye.
  apply blink_eyes_round_trip; assumption.
Qed.

Lemma blink_eyes_restores_open_state_witness :
  exists fuel,
    blink_eyes fuel default_device DEFAULT_RENDER_CONFIG (Some "both") "slow"
      (initial_state DEFAULT_RENDER_CONFIG)
    = Some (initial_state DEFAULT_RENDER_CONFIG).
Proof.
  apply (blink_eyes_restores_open_state default_device DEFAULT_RENDER_CONFIG
           (Some "both") "slow" (initial_state DEFAULT_RENDER_CONFIG)).
  - unfold fully_open. simpl. auto.
  - right. right. split; reflexivity.
Defined.

(* ================================================================== *)
(** * Further properties of [change_face] *)

(** X5.  [change_face] returns from every state and for every argument.
    The six eyelid fields end exactly at the targets of the table: bottom
    lids at half the current eye height for ["happy"], inner top lids for
    ["angry"], outer top lids for ["tired"], everything 0 for any other
    string.  [current_face] is the requested face, or the previous one when
    the argument is [None]; eye heights, [current_closed], offsets,
    [current_curious] and colours are untouched. *)
Theorem change_face_reaches_targets :
  forall (device : Device) (config : Config) (new_face : option string)
         (st : State),
    let face :=
      match new_face with None => current_face st | Some f => f end in
    let hl := current_eye_height_left st / 2 in
    let hr := current_eye_height_right st / 2 in
    exists fuel r,
      change_face fuel device config new_face st = Some r
      /\ r = set_eyelids (eyelids_of r) (set_face face st)
      /\ eyelids_of r =
           (if (face =? "happy")%string then mkEyelids 0 0 hl 0 0 hr
            else if (face =? "angry")%string then mkEyelids hl 0 0 hr 0 0
            else if (face =? "tired")%string then mkEyelids 0 hl 0 0 hr 0
            else mkEyelids 0 0 0 0 0 0).
Proof.
  intros device config new_face st face hl hr.
  destruct (change_face_total device config new_face st) as [fuel H].
  exists fuel, (change_face_result new_face st).
  split; [exact H|].
  unfold change_face_result. fold face.
  rewrite eyelids_of_set_eyelids. split; [reflexivity|].
  unfold target_eyelid_heights. reflexivity.
Qed.

Lemma change_face_result_again (f : string) (st : State) :
  change_face_result (Some f) (change_face_result (Some f) st)
  = change_face_result (Some f) st
  /\ change_face_result None (change_face_result (Some f) st)
     = change_face_result (Some f) st.
Proof.
  unfold change_face_result, target_eyelid_heights.
  destruct (f =? "happy")%string eqn:E1;
    [|destruct (f =? "angry")%string eqn:E2;
      [|destruct (f =? "tired")%string eqn:E3]];
    simpl; rewrite ?E1, ?E2, ?E3; split; reflexivity.
Qed.

Lemma change_face_at_targets (device : Device) (config : Config)
  (new_face : option string) (st : State) :
  change_face_result new_face st = st ->
  change_face 1 device config new_face st = Some st.
Proof.
  intros Hfix. unfold change_face, change_face_result in *.
  set (face := match new_face with
               | Some f => f
               | None => current_face st
               end) in *.
  set (tgt := target_eyelid_heights face (set_face face st)) in *.
  assert (Hlids : eyelids_of (set_face face st) = tgt).
  { rewrite <- Hfix at 1. destruct tgt; reflexivity. }
  simpl. unfold change_face_body, while_body. simpl.
  rewrite Hlids.
  assert (Hsame : eyelids_differ tgt tgt = false).
  { unfold eyelids_differ. rewrite !Z.eqb_refl. reflexivity. }
  rewrite Hsame. simpl. f_equal.
  rewrite <- Hlids in Hfix. rewrite set_eyelids_eyelids_of in Hfix.
  exact Hfix.
Qed.

(** X6.  [change_face] is idempotent.  Once [change_face(f)] has returned,
    calling it again with the same face, or with no argument, returns on
    the first test of its loop, without a tick, and leaves the state as it
    is. *)
Theorem change_face_twice_is_once :
  forall (device : Device) (config : Config) (f : string) (fuel : nat)
         (st r : State),
    change_face fuel device config (Some f) st = Some r ->
    change_face 1 device config (Some f) r = Some r
    /\ change_face 1 device config None r = Some r.
Proof.
  intros device config f fuel st r H.
  apply change_face_sound in H. subst r.
  destruct (change_face_result_again f st) as [H1 H2].
  split; apply change_face_at_targets; assumption.
Qed.

Lemma change_face_twice_is_once_witness :
  change_face 1 default_device DEFAULT_RENDER_CONFIG (Some "angry")
    (change_face_result (Some "angry") (initial_state DEFAULT_RENDER_CONFIG))
  = Some (change_face_result (Some "angry")
            (initial_state DEFAULT_RENDER_CONFIG))
  /\ change_face 1 default_device DEFAULT_RENDER_CONFIG None
       (change_face_result (Some "angry")
          (initial_state DEFAULT_RENDER_CONFIG))
     = Some (change_face_result (Some "angry")
               (initial_state DEFAULT_RENDER_CONFIG)).
Proof.
  apply (change_face_twice_is_once default_device DEFAULT_RENDER_CONFIG
           "angry" 9 (initial_state DEFAULT_RENDER_CONFIG)).
  vm_compute. reflexivity.
Defined.

(* ================================================================== *)
(** * Further properties of [look] *)

Lemma Qltb_true (a b : Q) : Qltb a b = true -> (a < b)%Q.
Proof.
  unfold Qltb. intros H. apply negb_true_iff in H.
  apply Qnot_le_lt. intros Hle. apply Qle_bool_iff in Hle. congruence.
Qed.

Lemma Qltb_false (a b : Q) : Qltb a b = false -> (b <= a)%Q.
Proof.
  unfold Qltb. intros H. apply negb_false_iff in H.
  apply Qle_bool_iff. exact H.
Qed.

Lemma look_speed_cases (speed : string) :
  look_speed speed = (1 # 2)%Q \/ look_speed speed = 1%Q
  \/ look_speed speed = 2%Q.
Proof.
  unfold look_speed.
  destruct (speed =? "slow")%string; auto.
  destruct (speed =? "medium")%string; auto.
  destruct (speed =? "fast")%string; auto.
Qed.

Lemma look_speed_bounds (speed : string) :
  ((1 # 2) <= look_speed speed)%Q.
Proof.
  destruct (look_speed_cases speed) as [-> | [-> | ->]];
    unfold Qle; simpl; lia.
Qed.

Ltac ease_offset_cases :=
  unfold ease_offset, py_min, py_max;
  repeat match goal with
         | |- context [Qltb ?a ?b] =>
             let E := fresh "E" in
             destruct (Qltb a b) eqn:E;
             [apply Qltb_true in E | apply Qltb_false in E]
         end.

(** One tick brings an offset one step closer, and never past the target. *)
Lemma ease_offset_within (step b cur tgt : Q) :
  (0 < step)%Q -> (0 <= b)%Q ->
  within (b + step) cur tgt ->
  within b (ease_offset step cur tgt) tgt.
Proof.
  unfold within. intros Hs Hb [H1 H2].
  ease_offset_cases; split; lra.
Qed.

Lemma reach_nonneg (n : nat) (step : Q) : (0 < step)%Q -> (0 <= reach n step)%Q.
Proof. intros Hs. induction n as [|n IH]; simpl; lra. Qed.

Lemma reach_lower (n : nat) (step : Q) :
  ((1 # 2) <= step)%Q ->
  (inject_Z (Z.of_nat n) * (1 # 2) <= reach n step)%Q.
Proof.
  intros Hs. induction n as [|n IH].
  - simpl. unfold inject_Z. lra.
  - rewrite Nat2Z.inj_succ. unfold Z.succ. rewrite inject_Z_plus.
    simpl reach. change (inject_Z 1) with 1%Q. lra.
Qed.

(** Every offset is within finitely many steps of every target. *)
Lemma within_some_reach (step cur tgt : Q) :
  ((1 # 2) <= step)%Q ->
  exists n, forall m, (n <= m)%nat -> within (reach m step) cur tgt.
Proof.
  intros Hs.
  set (z := Z.max 0 (Z.max (Qceiling (2 * (cur - tgt)))
                            (Qceiling (2 * (tgt - cur))))).
  exists (Z.to_nat z). intros m Hm.
  pose proof (reach_lower m step Hs) as Hlow.
  pose proof (Qle_ceiling (2 * (cur - tgt))) as H1.
  pose proof (Qle_ceiling (2 * (tgt - cur))) as H2.
  assert (Hz1 : (inject_Z (Qceiling (2 * (cur - tgt)))
                 <= inject_Z (Z.of_nat m))%Q).
  { rewrite <- Zle_Qle. lia. }
  assert (Hz2 : (inject_Z (Qceiling (2 * (tgt - cur)))
                 <= inject_Z (Z.of_nat m))%Q).
  { rewrite <- Zle_Qle. lia. }
  unfold within. split; lra.
Qed.

(** The loop of [look] from offsets within [n] steps of the target. *)
Lemma look_loop_total (step : Q) (tgt : Z * Z) (st : State) :
  (0 < step)%Q ->
  forall n x y,
    within (reach n step) x (inject_Z (fst tgt)) ->
    within (reach n step) y (inject_Z (snd tgt)) ->
    exists r,
      loop (look_body step tgt) (Datatypes.S n) ((x, y), set_offsets x y st)
      = Some r
      /\ snd r = set_offsets (fst (fst r)) (snd (fst r)) st
      /\ (fst (fst r) == inject_Z (fst tgt))%Q
      /\ (snd (fst r) == inject_Z (snd tgt))%Q.
Proof.
  intros Hs. induction n as [|n IH]; intros x y Hx Hy.
  - simpl. unfold look_body, while_body. simpl.
    assert (Ex : (x == inject_Z (fst tgt))%Q)
      by (unfold within in Hx; simpl in Hx; lra).
    assert (Ey : (y == inject_Z (snd tgt))%Q)
      by (unfold within in Hy; simpl in Hy; lra).
    rewrite (Qeq_eq_bool _ _ Ex), (Qeq_eq_bool _ _ Ey). simpl.
    eexists. split; [reflexivity|]. simpl. auto.
  - change (loop (look_body step tgt) (Datatypes.S (Datatypes.S n))
              (x, y, set_offsets x y st))
      with (match look_body step tgt (x, y, set_offsets x y st) with
            | Break s' => Some s'
            | Continue s' => loop (look_body step tgt) (Datatypes.S n) s'
            end).
    unfold look_body at 1, while_body. simpl fst. simpl snd.
    destruct (negb (Qeq_bool x (inject_Z (fst tgt)))
              || negb (Qeq_bool y (inject_Z (snd tgt)))) eqn:E.
    + unfold look_tick. simpl fst. simpl snd.
      change (set_offsets (ease_offset step x (inject_Z (fst tgt)))
                (ease_offset step y (inject_Z (snd tgt)))
                (set_offsets x y st))
        with (set_offsets (ease_offset step x (inject_Z (fst tgt)))
                (ease_offset step y (inject_Z (snd tgt))) st).
      apply IH; apply ease_offset_within;
        auto using reach_nonneg.
    + apply orb_false_elim in E. destruct E as [Ex Ey].
      apply negb_false_iff, Qeq_bool_iff in Ex.
      apply negb_false_iff, Qeq_bool_iff in Ey.
      eexists. split; [reflexivity|]. simpl. auto.
Qed.

Lemma set_offsets_same (st : State) :
  set_offsets (current_offset_x st) (current_offset_y st) st = st.
Proof. destruct st; reflexivity. Qed.

Lemma look_mono (device : Device) (config : Config)
  (direction speed : string) (st r : State) (n m : nat) :
  look n device config direction speed st = Some r -> (n <= m)%nat ->
  look m device config direction speed st = Some r.
Proof.
  unfold look. intros H Hle.
  match type of H with
  | option_map _ (loop ?b _ ?s) = _ => destruct (loop b n s) as [p|] eqn:E
  end; [|discriminate].
  rewrite (loop_mono _ _ _ _ _ E Hle). exact H.
Qed.

Lemma look_total (device : Device) (config : Config)
  (direction speed : string) (st : State) :
  exists fuel r,
    look fuel device config direction speed st = Some r
    /\ r = set_offsets (current_offset_x r) (current_offset_y r) st
    /\ offsets_are (look_goal device config direction st) r.
Proof.
  pose proof (look_speed_bounds speed) as Hs.
  set (tgt := look_goal device config direction st).
  destruct (within_some_reach (look_speed speed) (current_offset_x st)
              (inject_Z (fst tgt)) Hs) as [n1 H1].
  destruct (within_some_reach (look_speed speed) (current_offset_y st)
              (inject_Z (snd tgt)) Hs) as [n2 H2].
  destruct (look_loop_total (look_speed speed) tgt st ltac:(lra)
              (Nat.max n1 n2) (current_offset_x st) (current_offset_y st))
    as [r [Hr [Hst [Hx Hy]]]].
  { apply H1. lia. }
  { apply H2. lia. }
  exists (Datatypes.S (Nat.max n1 n2)), (snd r).
  unfold look. fold (look_goal device config direction st). fold tgt.
  rewrite set_offsets_same in Hr. rewrite Hr.
  split; [reflexivity|].
  rewrite Hst. simpl. split; [reflexivity|].
  unfold offsets_are. simpl. auto.
Qed.

Lemma look_sound_target (device : Device) (config : Config)
  (direction speed : string) (st r : State) (n : nat) :
  look n device config direction speed st = Some r ->
  r = set_offsets (current_offset_x r) (current_offset_y r) st
  /\ offsets_are (look_goal device config direction st) r.
Proof.
  intros H.
  destruct (look_total device config direction speed st)
    as [m [r' [Hm Hr']]].
  apply look_mono with (m := Nat.max n m) in H; [|lia].
  apply look_mono with (m := Nat.max n m) in Hm; [|lia].
  assert (r = r') by congruence. subst r'. exact Hr'.
Qed.

Lemma half_integer_inject (t : Z) : half_integer (inject_Z t).
Proof. exists (2 * t). unfold Qeq, inject_Z. cbn [Qnum Qden]. lia. Qed.

Lemma half_integer_shift (q : Q) (j : Z) :
  half_integer q -> half_integer (q + (j # 2)).
Proof.
  intros [k Hk]. exists (k + j). rewrite Hk.
  unfold Qeq, Qplus. simpl. lia.
Qed.

Lemma half_integer_step (step cur : Q) :
  step = (1 # 2)%Q \/ step = 1%Q \/ step = 2%Q ->
  half_integer cur ->
  half_integer (cur + step) /\ half_integer (cur - step).
Proof.
  intros Hs [k Hk].
  destruct Hs as [-> | [-> | ->]]; split.
  - exists (k + 1). rewrite Hk. unfold Qeq, Qplus; simpl; lia.
  - exists (k - 1). rewrite Hk. unfold Qeq, Qminus, Qplus, Qopp; simpl; lia.
  - exists (k + 2). rewrite Hk. unfold Qeq, Qplus; simpl; lia.
  - exists (k - 2). rewrite Hk. unfold Qeq, Qminus, Qplus, Qopp; simpl; lia.
  - exists (k + 4). rewrite Hk. unfold Qeq, Qplus; simpl; lia.
  - exists (k - 4). rewrite Hk. unfold Qeq, Qminus, Qplus, Qopp; simpl; lia.
Qed.

(** A tick keeps an offset exact: it stays a multiple of 1/2 and between
    where it was and the target. *)
Lemma ease_offset_exact (step cur : Q) (t : Z) :
  step = (1 # 2)%Q \/ step = 1%Q \/ step = 2%Q ->
  - 8192 <= t <= 8192 ->
  exact_offset cur ->
  exact_offset (ease_offset step cur (inject_Z t)).
Proof.
  intros Hs Ht [Hh [Hlo Hhi]].
  destruct (half_integer_step step cur Hs Hh) as [Hplus Hminus].
  pose proof (half_integer_inject t) as Htgt.
  assert (Hstep : (0 < step)%Q)
    by (destruct Hs as [-> | [-> | ->]]; reflexivity).
  assert (Ht1 : (- (8192) <= inject_Z t)%Q)
    by (change (- (8192))%Q with (inject_Z (- 8192));
        rewrite <- Zle_Qle; lia).
  assert (Ht2 : (inject_Z t <= 8192)%Q)
    by (change 8192%Q with (inject_Z 8192); rewrite <- Zle_Qle; lia).
  unfold exact_offset.
  ease_offset_cases; (split; [assumption | split; lra]).
Qed.

Lemma loop_trace_Forall {S : Type} (body : S -> flow S) (I : S -> Prop) :
  (forall s s', I s -> body s = Continue s' -> I s') ->
  forall n s, I s -> Forall I (loop_trace body n s).
Proof.
  intros Hc. induction n as [|n IH]; intros s Hs; [constructor|].
  simpl. destruct (body s) as [s'|s'] eqn:E; [|constructor].
  constructor; [|apply IH]; eapply Hc; eassumption.
Qed.

Lemma effective_bounds (st : State) (v : Z) :
  0 <= v <= 2048 -> 0 <= effective st v <= 2458.
Proof.
  intros Hv. unfold effective. destruct (current_curious st); [|lia].
  pose proof (inflate_bounds v (proj1 Hv)). lia.
Qed.

(** Under [display_sized] every target of [look] is within 8192. *)
Lemma look_goal_bounded (device : Device) (config : Config)
  (direction : string) (st : State) :
  display_sized config device ->
  - 8192 <= fst (look_goal device config direction st) <= 8192
  /\ - 8192 <= snd (look_goal device config direction st) <= 8192.
Proof.
  intros [Hwl [Hwr [Hhl [Hhr [HW [HH Hd]]]]]].
  unfold look_goal.
  destruct (get_constraints_eq config device st) as [-> _].
  pose proof (effective_bounds st _ Hwl).
  pose proof (effective_bounds st _ Hwr).
  pose proof (effective_bounds st _ Hhl) as Hel.
  pose proof (effective_bounds st _ Hhr) as Her.
  assert (0 <= device_width device / 2 <= 2048)
    by (split; [apply Z.div_pos | apply Z.div_le_upper_bound]; lia).
  assert (0 <= device_height device / 2 <= 2048)
    by (split; [apply Z.div_pos | apply Z.div_le_upper_bound]; lia).
  assert (0 <= eye_distance config / 2 <= 2048)
    by (split; [apply Z.div_pos | apply Z.div_le_upper_bound]; lia).
  assert (0 <= effective st (height (eye_left config)) / 2 <= 2458)
    by (split; [apply Z.div_pos | apply Z.div_le_upper_bound]; lia).
  assert (0 <= effective st (height (eye_right config)) / 2 <= 2458)
    by (split; [apply Z.div_pos | apply Z.div_le_upper_bound]; lia).
  unfold look_target.
  repeat match goal with
         | |- context [(direction =? ?s)%string] =>
             destruct (direction =? s)%string
         end; simpl; lia.
Qed.

(** X7.  For a configuration and device of display size (eye sizes up to
    2048, screen and distance up to 4096) and starting offsets that are
    multiples of 1/2 within 8192, [look] returns for every direction and
    speed (an unknown direction means the centre, an unknown speed a step of
    2).  On return both offsets are numerically equal to the target of the
    direction computed from [get_constraints], and no global other than the
    two offsets has changed.  Every offset written on the way is a multiple
    of 1/2 within 8192, which doubles hold and step exactly.  The frame
    rate is positive, as the sleep of each tick needs. *)
Theorem look_reaches_target :
  forall (device : Device) (config : Config) (direction speed : string)
         (st : State),
    0 < render_fps config ->
    display_sized config device ->
    exact_offset (current_offset_x st) ->
    exact_offset (current_offset_y st) ->
    exists fuel r,
      look fuel device config direction speed st = Some r
      /\ (current_offset_x r
          == inject_Z (fst (look_target direction
                              (get_constraints config device st))))%Q
      /\ (current_offset_y r
          == inject_Z (snd (look_target direction
                              (get_constraints config device st))))%Q
      /\ r = set_offsets (current_offset_x r) (current_offset_y r) st
      /\ Forall (fun p => exact_offset (fst p) /\ exact_offset (snd p))
           (look_trace fuel device config direction speed st).
Proof.
  intros device config direction speed st _ Hsize Hx0 Hy0.
  destruct (look_total device config direction speed st)
    as [fuel [r [H [Hst [Hx Hy]]]]].
  exists fuel, r.
  split; [exact H|]. split; [exact Hx|]. split; [exact Hy|].
  split; [exact Hst|].
  destruct (look_goal_bounded device config direction st Hsize) as [Htx Hty].
  unfold look_trace. fold (look_goal device config direction st).
  set (tgt := look_goal device config direction st) in *.
  pose proof (look_speed_cases speed) as Hs.
  assert (HF : Forall
                 (fun s : (Q * Q) * State =>
                    exact_offset (current_offset_x (snd s))
                    /\ exact_offset (current_offset_y (snd s))
                    /\ fst s = (current_offset_x (snd s),
                                current_offset_y (snd s)))
                 (loop_trace (look_body (look_speed speed) tgt) fuel
                    (current_offset_x st, current_offset_y st, st))).
  { apply loop_trace_Forall.
    - intros [[x y] s] s' [Hex [Hey Heq]].
      unfold look_body, while_body.
      destruct (_ || _); [|discriminate]. intros [= <-].
      simpl in Heq. injection Heq as -> ->.
      unfold look_tick. simpl.
      split; [apply ease_offset_exact; assumption|].
      split; [apply ease_offset_exact; assumption|]. reflexivity.
    - simpl. auto. }
  apply Forall_map. eapply Forall_impl; [|exact HF].
  intros s [Hex [Hey _]]. simpl. split; assumption.
Qed.

Lemma look_reaches_target_witness :
  exists fuel r,
    look fuel default_device DEFAULT_RENDER_CONFIG "TR" "slow"
      (initial_state DEFAULT_RENDER_CONFIG) = Some r
    /\ (current_offset_x r
        == inject_Z (fst (look_target "TR"
                            (get_constraints DEFAULT_RENDER_CONFIG
                               default_device
                               (initial_state DEFAULT_RENDER_CONFIG)))))%Q
    /\ (current_offset_y r
        == inject_Z (snd (look_target "TR"
                            (get_constraints DEFAULT_RENDER_CONFIG
                               default_device
                               (initial_state DEFAULT_RENDER_CONFIG)))))%Q
    /\ r = set_offsets (current_offset_x r) (current_offset_y r)
             (initial_state DEFAULT_RENDER_CONFIG)
    /\ Forall (fun p => exact_offset (fst p) /\ exact_offset (snd p))
         (look_trace fuel default_device DEFAULT_RENDER_CONFIG "TR" "slow"
            (initial_state DEFAULT_RENDER_CONFIG)).
Proof.
  apply (look_reaches_target default_device DEFAULT_RENDER_CONFIG "TR" "slow"
           (initial_state DEFAULT_RENDER_CONFIG)).
  - reflexivity.
  - unfold display_sized. simpl. lia.
  - split; [exists 0; reflexivity | split; discriminate].
  - split; [exists 0; reflexivity | split; discriminate].
Defined.

Lemma get_constraints_set_offsets (config : Config) (device : Device)
  (x y : Q) (st : State) :
  get_constraints config device (set_offsets x y st)
  = get_constraints config device st.
Proof. reflexivity. Qed.

(** X8.  A repeated [look] is a no-op.  Once [look(direction)] has
    returned, [look] in the same direction, at any speed, returns on the
    first test of its loop, without a tick, and leaves the state as it
    is. *)
Theorem look_again_is_noop :
  forall (device : Device) (config : Config) (direction speed speed' : string)
         (fuel : nat) (st r : State),
    look fuel device config direction speed st = Some r ->
    look 1 device config direction speed' r = Some r.
Proof.
  intros device config direction speed speed' fuel st r H.
  apply look_sound_target in H. destruct H as [Hst [Hx Hy]].
  unfold look. simpl.
  replace (get_constraints config device r)
    with (get_constraints config device st)
    by (rewrite Hst; reflexivity).
  unfold look_goal in Hx, Hy. simpl in Hx, Hy.
  unfold look_body, while_body. simpl.
  rewrite (Qeq_eq_bool _ _ Hx), (Qeq_eq_bool _ _ Hy). reflexivity.
Qed.

Lemma look_again_is_noop_witness :
  look 1 default_device DEFAULT_RENDER_CONFIG "TR" "slow" looking_TR_state
  = Some looking_TR_state.
Proof.
  apply (look_again_is_noop default_device DEFAULT_RENDER_CONFIG "TR" "fast"
           "slow" 15 (initial_state DEFAULT_RENDER_CONFIG) looking_TR_state).
  vm_compute. reflexivity.
Defined.

Lemma look_loop_map (g : State -> State) (step : Q) (tgt : Z * Z) :
  (forall x y s, g (set_offsets x y s) = set_offsets x y (g s)) ->
  forall n o s,
    loop (look_body step tgt) n (o, g s)
    = option_map (fun p => (fst p, g (snd p)))
        (loop (look_body step tgt) n (o, s)).
Proof.
  intros Hg. induction n as [|n IH]; intros [x y] s; [reflexivity|].
  simpl. unfold look_body, while_body. simpl.
  destruct (negb (Qeq_bool x (inject_Z (fst tgt)))
            || negb (Qeq_bool y (inject_Z (snd tgt)))); [|reflexivity].
  unfold look_tick. simpl. rewrite <- Hg. apply IH.
Qed.

Lemma change_face_result_set_offsets (new_face : option string) (x y : Q)
  (st : State) :
  change_face_result new_face (set_offsets x y st)
  = set_offsets x y (change_face_result new_face st).
Proof. reflexivity. Qed.

Lemma look_after_change_face (device : Device) (config : Config)
  (direction speed : string) (new_face : option string) (st : State)
  (n : nat) :
  look n device config direction speed (change_face_result new_face st)
  = option_map (change_face_result new_face)
      (look n device config direction speed st).
Proof.
  unfold look.
  change (get_constraints config device (change_face_result new_face st))
    with (get_constraints config device st).
  change (current_offset_x (change_face_result new_face st))
    with (current_offset_x st).
  change (current_offset_y (change_face_result new_face st))
    with (current_offset_y st).
  rewrite (look_loop_map (change_face_result new_face));
    [|intros; apply change_face_result_set_offsets].
  destruct (loop _ n _) as [[o s]|]; reflexivity.
Qed.

(** X9.  [look] and [change_face] commute: they write disjoint globals and
    neither reads what the other writes.  If [look] and then [change_face]
    end in a state, [change_face] and then [look] end in the same state. *)
Theorem look_commutes_with_change_face :
  forall (device : Device) (config : Config) (direction speed : string)
         (new_face : option string) (n m : nat) (st r1 r2 : State),
    look n device config direction speed st = Some r1 ->
    change_face m device config new_face r1 = Some r2 ->
    exists fuel r1',
      change_face fuel device config new_face st = Some r1'
      /\ look fuel device config direction speed r1' = Some r2.
Proof.
  intros device config direction speed new_face n m st r1 r2 Hlook Hface.
  apply change_face_sound in Hface. subst r2.
  destruct (change_face_total device config new_face st) as [k Hk].
  exists (Nat.max n k), (change_face_result new_face st). split.
  - eapply change_face_mono; [exact Hk | lia].
  - rewrite look_after_change_face.
    rewrite (look_mono _ _ _ _ _ _ _ _ Hlook (Nat.le_max_l n k)).
    reflexivity.
Qed.

Lemma look_commutes_with_change_face_witness :
  exists fuel r1',
    change_face fuel default_device DEFAULT_RENDER_CONFIG (Some "happy")
      (initial_state DEFAULT_RENDER_CONFIG) = Some r1'
    /\ look fuel default_device DEFAULT_RENDER_CONFIG "TR" "fast" r1'
       = Some (change_face_result (Some "happy") looking_TR_state).
Proof.
  apply (look_commutes_with_change_face default_device DEFAULT_RENDER_CONFIG
           "TR" "fast" (Some "happy") 15 9
           (initial_state DEFAULT_RENDER_CONFIG) looking_TR_state).
  - vm_compute. reflexivity.
  - vm_compute. reflexivity.
Defined.

(* ================================================================== *)
(** * Further properties of [get_constraints] *)

Lemma inflate_grows (v : Z) : 0 <= v -> v <= inflate v.
Proof. intros Hv. pose proof (inflate_bounds v Hv). lia. Qed.

(** X10.  Curious mode never widens the range of movement.  For
    non-negative configured eye sizes, the constraints computed with
    [current_curious] set lie inside those computed with it cleared, on
    both axes. *)
Theorem curious_constraints_inside_plain :
  forall (config : Config) (device : Device) (st : State),
    0 <= width (eye_left config) -> 0 <= width (eye_right config) ->
    0 <= height (eye_left config) -> 0 <= height (eye_right config) ->
    let plain := get_constraints config device (set_curious false st) in
    let curious := get_constraints config device (set_curious true st) in
    min_x plain <= min_x curious /\ max_x curious <= max_x plain
    /\ min_y plain <= min_y curious /\ max_y curious <= max_y plain.
Proof.
  intros config device st Hwl Hwr Hhl Hhr plain curious.
  subst plain curious. unfold get_constraints. simpl.
  pose proof (inflate_grows _ Hwl). pose proof (inflate_grows _ Hwr).
  pose proof (inflate_grows _ Hhl). pose proof (inflate_grows _ Hhr).
  assert (height (eye_left config) / 2 <= inflate (height (eye_left config)) / 2)
    by (apply Z.div_le_mono; lia).
  assert (height (eye_right config) / 2
          <= inflate (height (eye_right config)) / 2)
    by (apply Z.div_le_mono; lia).
  lia.
Qed.

Lemma curious_constraints_inside_plain_witness :
  let plain := get_constraints DEFAULT_RENDER_CONFIG default_device
                 (set_curious false (initial_state DEFAULT_RENDER_CONFIG)) in
  let curious := get_constraints DEFAULT_RENDER_CONFIG default_device
                   (set_curious true (initial_state DEFAULT_RENDER_CONFIG)) in
  min_x plain <= min_x curious /\ max_x curious <= max_x plain
  /\ min_y plain <= min_y curious /\ max_y curious <= max_y plain.
Proof.
  apply (curious_constraints_inside_plain DEFAULT_RENDER_CONFIG default_device
           (initial_state DEFAULT_RENDER_CONFIG));
    vm_compute; discriminate.
Defined.

(* ================================================================== *)
(** * The inflation of [get_constraints] in floating point *)

Lemma float_inflate_agrees_upto_2048 :
  forallb float_inflate_agrees (upto 2049) = true.
Proof. vm_compute. reflexivity. Qed.

(** X11.  For every eye size from 0 to 2048, the double-precision
    computation [int(v * (1 + 0.2))] of [get_constraints] is the truncation
    of [6 * v / 5]: the rounding of [1 + 0.2] and of the product never
    changes the integer part, not even where [6 * v / 5] is itself an
    integer. *)
Theorem float_inflate_is_inflate :
  forall v : Z, 0 <= v <= 2048 -> float_inflate v = Some (inflate v).
Proof.
  intros v Hv.
  pose proof float_inflate_agrees_upto_2048 as H.
  rewrite forallb_forall in H.
  specialize (H v).
  assert (Hin : In v (upto 2049)).
  { unfold upto. apply in_map_iff. exists (Z.to_nat v). split; [lia|].
    apply in_seq. lia. }
  specialize (H Hin). unfold float_inflate_agrees in H.
  destruct (float_inflate v) as [r|]; [|discriminate].
  apply Z.eqb_eq in H. congruence.
Qed.

Lemma float_inflate_is_inflate_witness : float_inflate 35 = Some (inflate 35).
Proof. apply (float_inflate_is_inflate 35). lia. Defined.

Lemma float_inflate_in_range (v : Z) :
  0 <= v <= 2048 -> float_inflate v = Some (inflate v).
Proof.
  intros Hv.
  pose proof float_inflate_agrees_upto_2048 as H.
  rewrite forallb_forall in H.
  assert (Hin : In v (upto 2049)).
  { unfold upto. apply in_map_iff. exists (Z.to_nat v). split; [lia|].
    apply in_seq. lia. }
  specialize (H v Hin). unfold float_inflate_agrees in H.
  destruct (float_inflate v) as [r|]; [|discriminate].
  apply Z.eqb_eq in H. congruence.
Qed.

(** C3, as amended.  For every configuration whose eye widths and heights
    lie between 0 and 2048, every device and every state, [get_constraints]
    returns
    [minX = -(W//2 - wL - d//2)], [maxX = W//2 - wR - d//2],
    [minY = -(H//2 - hL//2)] and [maxY = H//2 - hR//2]: the vertical pair has
    no distance term and subtracts half the eye height.  [wL], [wR], [hL],
    [hR] are the configured sizes, replaced when [current_curious] is set by
    [int(v * (1 + 0.2))]; for a size in that range the double-precision
    product truncates to the truncation of [6 * v / 5]. *)
Theorem get_constraints_formulas :
  forall (config : Config) (device : Device) (st : State),
    0 <= width (eye_left config) <= 2048 ->
    0 <= width (eye_right config) <= 2048 ->
    0 <= height (eye_left config) <= 2048 ->
    0 <= height (eye_right config) <= 2048 ->
    get_constraints config device st =
      (- (device_width device / 2
          - effective st (width (eye_left config))
          - eye_distance config / 2),
       device_width device / 2
         - effective st (width (eye_right config))
         - eye_distance config / 2,
       - (device_height device / 2
          - effective st (height (eye_left config)) / 2),
       device_height device / 2
         - effective st (height (eye_right config)) / 2)
    /\ (forall v, 0 <= v <= 2048 ->
          effective st v = (if current_curious st then Z.quot (v * 6) 5 else v)
          /\ (current_curious st = true ->
              float_inflate v = Some (effective st v)
              /\ 5 * effective st v <= 6 * v < 5 * effective st v + 5))
    /\ (current_curious st = true ->
        float_inflate (width (eye_left config))
        = Some (effective st (width (eye_left config)))
        /\ float_inflate (width (eye_right config))
           = Some (effective st (width (eye_right config)))
        /\ float_inflate (height (eye_left config))
           = Some (effective st (height (eye_left config)))
        /\ float_inflate (height (eye_right config))
           = Some (effective st (height (eye_right config)))).
Proof.
  intros config device st Hwl Hwr Hhl Hhr.
  destruct (get_constraints_eq config device st) as [Hg [He Hb]].
  split; [exact Hg|].
  assert (Hfloat : forall v, 0 <= v <= 2048 -> current_curious st = true ->
                             float_inflate v = Some (effective st v)).
  { intros v Hv Hc. unfold effective. rewrite Hc.
    apply float_inflate_in_range. exact Hv. }
  split.
  - intros v Hv. split; [apply He|].
    intros Hc. split; [apply Hfloat; assumption|].
    apply Hb; [exact Hc | lia].
  - intros Hc. repeat split; apply Hfloat; assumption.
Qed.

Lemma get_constraints_formulas_witness :
  get_constraints DEFAULT_RENDER_CONFIG default_device
    (set_curious true (initial_state DEFAULT_RENDER_CONFIG)) =
    (- (device_width default_device / 2
        - effective (set_curious true (initial_state DEFAULT_RENDER_CONFIG))
            (width (eye_left DEFAULT_RENDER_CONFIG))
        - eye_distance DEFAULT_RENDER_CONFIG / 2),
     device_width default_device / 2
       - effective (set_curious true (initial_state DEFAULT_RENDER_CONFIG))
           (width (eye_right DEFAULT_RENDER_CONFIG))
       - eye_distance DEFAULT_RENDER_CONFIG / 2,
     - (device_height default_device / 2
        - effective (set_curious true (initial_state DEFAULT_RENDER_CONFIG))
            (height (eye_left DEFAULT_RENDER_CONFIG)) / 2),
     device_height default_device / 2
       - effective (set_curious true (initial_state DEFAULT_RENDER_CONFIG))
           (height (eye_right DEFAULT_RENDER_CONFIG)) / 2)
  /\ (forall v, 0 <= v <= 2048 ->
        effective (set_curious true (initial_state DEFAULT_RENDER_CONFIG)) v
        = (if current_curious
                (set_curious true (initial_state DEFAULT_RENDER_CONFIG))
           then Z.quot (v * 6) 5 else v)
        /\ (current_curious
              (set_curious true (initial_state DEFAULT_RENDER_CONFIG)) = true ->
            float_inflate v
            = Some (effective
                      (set_curious true (initial_state DEFAULT_RENDER_CONFIG))
                      v)
            /\ 5 * effective
                     (set_curious true (initial_state DEFAULT_RENDER_CONFIG)) v
               <= 6 * v
               < 5 * effective
                       (set_curious true
                          (initial_state DEFAULT_RENDER_CONFIG)) v + 5))
  /\ (current_curious
        (set_curious true (initial_state DEFAULT_RENDER_CONFIG)) = true ->
      float_inflate (width (eye_left DEFAULT_RENDER_CONFIG))
      = Some (effective
                (set_curious true (initial_state DEFAULT_RENDER_CONFIG))
                (width (eye_left DEFAULT_RENDER_CONFIG)))
      /\ float_inflate (width (eye_right DEFAULT_RENDER_CONFIG))
         = Some (effective
                   (set_curious true (initial_state DEFAULT_RENDER_CONFIG))
                   (width (eye_right DEFAULT_RENDER_CONFIG)))
      /\ float_inflate (height (eye_left DEFAULT_RENDER_CONFIG))
         = Some (effective
                   (set_curious true (initial_state DEFAULT_RENDER_CONFIG))
                   (height (eye_left DEFAULT_RENDER_CONFIG)))
      /\ float_inflate (height (eye_right DEFAULT_RENDER_CONFIG))
         = Some (effective
                   (set_curious true (initial_state DEFAULT_RENDER_CONFIG))
                   (height (eye_right DEFAULT_RENDER_CONFIG)))).
Proof.
  apply (get_constraints_formulas DEFAULT_RENDER_CONFIG default_device
           (set_curious true (initial_state DEFAULT_RENDER_CONFIG)));
    simpl; lia.
Defined.

(* ================================================================== *)
(** * The eye rectangles of [draw_eyes] *)


Lemma eye_sizes_plain (screen_width : Z) (config : Config) (st : State) :
  current_curious st = false ->
  eye_sizes screen_width config st
  = Some (Z.max 2 (width (eye_left config)),
          Z.max 2 (width (eye_right config)),
          Z.max 2 (or_else (current_eye_height_left st)
                     (height (eye_left config))),
          Z.max 2 (or_else (current_eye_height_right st)
                     (height (eye_right config)))).
Proof. intros Hc. unfold eye_sizes. rewrite Hc. reflexivity. Qed.

Lemma Q_shift_lower (a m : Z) (q : Q) :
  (inject_Z m <= q)%Q -> 0 <= a + m -> (0 <= inject_Z a + q)%Q.
Proof.
  intros Hq Hz. rewrite Zle_Qle in Hz. rewrite inject_Z_plus in Hz.
  change (inject_Z 0) with 0%Q in Hz. lra.
Qed.

Lemma Q_shift_upper (a m b : Z) (q : Q) :
  (q <= inject_Z m)%Q -> a + m <= b -> (inject_Z a + q <= inject_Z b)%Q.
Proof.
  intros Hq Hz. rewrite Zle_Qle in Hz. rewrite inject_Z_plus in Hz. lra.
Qed.



(** X13.  [get_constraints] keeps the eyes on the screen.  With curious mode
    off, a non-negative distance, configured widths of at least 2, equal
    configured heights, eye heights between 2 and the configured height and
    offsets within the constraints, the frame is computed and both eye
    rectangles lie on the screen of the device. *)
Theorem eye_coords_on_screen :
  forall (screen_width : Z) (device : Device) (config : Config) (st : State),
    current_curious st = false ->
    0 <= eye_distance config ->
    2 <= width (eye_left config) -> 2 <= width (eye_right config) ->
    height (eye_left config) = height (eye_right config) ->
    heights_in_range config st ->
    offsets_within (get_constraints config device st) st ->
    exists l r,
      eye_coords screen_width device config st = Some (l, r)
      /\ on_screen device l /\ on_screen device r.
Proof.
  intros sw device config st Hc Hd Hwl Hwr Hh [[Hl1 Hl2] [Hr1 Hr2]] Hoff.
  unfold eye_coords. rewrite (eye_sizes_plain sw config st Hc).
  eexists. eexists. split; [reflexivity|].
  destruct (get_constraints_eq config device st) as [Hg _].
  rewrite Hg in Hoff. unfold offsets_within, min_x, max_x, min_y, max_y in Hoff.
  unfold effective in Hoff. rewrite Hc in Hoff.
  destruct Hoff as [Hx1 [Hx2 [Hy1 Hy2]]].
  unfold or_else.
  destruct (Z.eqb_spec (current_eye_height_left st) 0) as [E|_]; [lia|].
  destruct (Z.eqb_spec (current_eye_height_right st) 0) as [E|_]; [lia|].
  rewrite !Z.max_r by lia.
  pose proof (Z.mul_div_le (device_width device) 2 ltac:(lia)) as HW.
  pose proof (Z.mul_div_le (device_height device) 2 ltac:(lia)) as HH.
  assert (0 <= eye_distance config / 2) by (apply Z.div_pos; lia).
  assert (current_eye_height_left st / 2 <= height (eye_left config) / 2)
    by (apply Z.div_le_mono; lia).
  assert (current_eye_height_right st / 2 <= height (eye_right config) / 2)
    by (apply Z.div_le_mono; lia).
  rewrite Hh in *.
  unfold on_screen, left_eye_coords, right_eye_coords. simpl.
  repeat split;
    first [ eapply Q_shift_lower; [eassumption | lia]
          | eapply Q_shift_upper; [eassumption | lia] ].
Qed.

Lemma eye_coords_on_screen_witness :
  exists l r,
    eye_coords 128 default_device DEFAULT_RENDER_CONFIG looking_TR_state
    = Some (l, r)
    /\ on_screen default_device l /\ on_screen default_device r.
Proof.
  apply (eye_coords_on_screen 128 default_device DEFAULT_RENDER_CONFIG
           looking_TR_state).
  - reflexivity.
  - vm_compute. discriminate.
  - vm_compute. discriminate.
  - vm_compute. discriminate.
  - reflexivity.
  - vm_compute. repeat split; discriminate.
  - vm_compute. repeat split; discriminate.
Defined.

(** Without equal configured heights the conclusion fails: the constraints
    bound the way up by the left eye and the way down by the right eye.
    With a left eye 40 high and a right eye 20 high on the 64-high screen,
    at the largest allowed vertical offset (22) the left eye ends at 74. *)
Lemma eye_coords_tall_left_eye_off_screen :
  offsets_within (get_constraints tall_left_config default_device
                    tall_left_looking_down) tall_left_looking_down
  /\ exists l r,
       eye_coords 128 default_device tall_left_config tall_left_looking_down
       = Some (l, r)
       /\ (box_y1 l == 74)%Q
       /\ ~ on_screen default_device l.
Proof.
  split; [vm_compute; repeat split; discriminate|].
  eexists. eexists. split; [vm_compute; reflexivity|].
  split; [vm_compute; reflexivity|].
  intros [_ [_ [_ H]]]. vm_compute in H. apply H. reflexivity.
Qed.

(* ================================================================== *)
(** * [load_config]: merging a file over the defaults *)

Lemma dict_get_set (k k' : string) (v : value) (d : dict) :
  dict_get k (dict_set k' v d)
  = if (k =? k')%string then Some v else dict_get k d.
Proof.
  induction d as [|[k0 v0] d IH]; simpl.
  - destruct (k =? k')%string; reflexivity.
  - destruct (String.eqb_spec k' k0) as [->|Hne]; simpl.
    + destruct (k =? k0)%string; reflexivity.
    + destruct (String.eqb_spec k k0) as [->|Hne'].
      * destruct (String.eqb_spec k0 k') as [E|_]; [congruence|reflexivity].
      * exact IH.
Qed.

Lemma dict_get_merge (k : string) (b : dict) :
  NoDup (map fst b) ->
  forall a,
    dict_get k (dict_merge a b)
    = match dict_get k b with
      | Some v => Some v
      | None => dict_get k a
      end.
Proof.
  unfold dict_merge. induction b as [|[k0 v0] b IH]; intros Hnd a.
  - reflexivity.
  - simpl in Hnd. inversion Hnd as [|? ? Hnotin Hnd']; subst.
    simpl. rewrite (IH Hnd'). rewrite dict_get_set.
    destruct (String.eqb_spec k k0) as [->|Hne]; [|reflexivity].
    destruct (dict_get k0 b) as [v|] eqn:E; [|reflexivity].
    exfalso. apply Hnotin. clear - E.
    induction b as [|[k1 v1] b IHb]; simpl in *; [discriminate|].
    destruct (String.eqb_spec k0 k1) as [->|_]; [left; reflexivity|].
    right. apply IHb. exact E.
Qed.

(** X14.  [load_config] merges at the top level only, the file winning.
    When the file is read, a top-level key of the result is bound to what
    the file binds it to, and to the default only when the file does not
    mention it.  When the file does not exist the result is the default
    configuration; any other failure ends the process. *)
Theorem load_config_prefers_file :
  forall (config default_config : dict) (k : string),
    NoDup (map fst config) ->
    exists merged,
      load_config (Loaded config) default_config = Some merged
      /\ dict_get k merged
         = match dict_get k config with
           | Some v => Some v
           | None => dict_get k default_config
           end
      /\ load_config FileNotFound default_config = Some default_config
      /\ load_config LoadError default_config = None.
Proof.
  intros config default_config k Hnd.
  exists (dict_merge default_config config).
  split; [reflexivity|]. split; [|split; reflexivity].
  apply dict_get_merge. exact Hnd.
Qed.

Lemma load_config_prefers_file_witness :
  exists merged,
    load_config (Loaded distance_only_file) DEFAULT_RENDER_CONFIG_dict
    = Some merged
    /\ dict_get "render" merged
       = match dict_get "render" distance_only_file with
         | Some v => Some v
         | None => dict_get "render" DEFAULT_RENDER_CONFIG_dict
         end
    /\ load_config FileNotFound DEFAULT_RENDER_CONFIG_dict
       = Some DEFAULT_RENDER_CONFIG_dict
    /\ load_config LoadError DEFAULT_RENDER_CONFIG_dict = None.
Proof.
  apply (load_config_prefers_file distance_only_file
           DEFAULT_RENDER_CONFIG_dict "render").
  simpl. repeat constructor. intros [].
Defined.

(** X15.  A table in the file replaces the default table of the same name
    as a whole.  If the file binds [k1] to a table that has no key [k2],
    then [config[k1][k2]] is missing from the loaded configuration, whatever
    the defaults hold there: an [eyeconfig.toml] that gives only
    [eye.distance] loses the default [eye.left] and [eye.right]. *)
Theorem load_config_drops_default_subkeys :
  forall (config default_config : dict) (k1 k2 : string)
         (t : list (string * value)),
    NoDup (map fst config) ->
    dict_get k1 config = Some (VTable t) ->
    dict_get k2 t = None ->
    exists merged,
      load_config (Loaded config) default_config = Some merged
      /\ dict_get2 k1 k2 merged = None.
Proof.
  intros config default_config k1 k2 t Hnd Hk1 Hk2.
  exists (dict_merge default_config config). split; [reflexivity|].
  unfold dict_get2. rewrite (dict_get_merge k1 config Hnd), Hk1. exact Hk2.
Qed.

Lemma load_config_drops_default_subkeys_witness :
  exists merged,
    load_config (Loaded distance_only_file) DEFAULT_RENDER_CONFIG_dict
    = Some merged
    /\ dict_get2 "eye" "left" merged = None.
Proof.
  apply (load_config_drops_default_subkeys distance_only_file
           DEFAULT_RENDER_CONFIG_dict "eye" "left" [("distance", VInt 20)]).
  - simpl. repeat constructor. intros [].
  - reflexivity.
  - reflexivity.
Defined.

(* ================================================================== *)
(** * How long [close_eyes] takes *)

Lemma close_eyes_body_step (eye : option string) (ms : Z) (st : State) :
  In eye [Some "left"; Some "right"; Some "both"] ->
  1 <= ms ->
  (selected_excess eye st <= ms ->
   close_eyes_body eye ms st = Break (close_eyes_result eye st))
  /\ (ms < selected_excess eye st ->
      exists st',
        close_eyes_body eye ms st = Continue st'
        /\ selected_excess eye st' = selected_excess eye st - ms
        /\ close_eyes_result eye st' = close_eyes_result eye st).
Proof.
  intros Heye Hms. simpl in Heye.
  destruct Heye as [<- | [<- | [<- | []]]];
    destruct st as [bg ec face cur cl ox oy l1 l2 l3 l4 l5 l6 hl hr];
    unfold selected_excess, close_eyes_body, close_eyes_result, with_heights;
    simpl; split; intros Hex; height_cases; try lia.
  all: try (eexists; split; [reflexivity|]; simpl; split;
            [lia | reflexivity]).
  all: unfold set_closed, set_eye_height_left, set_eye_height_right; simpl;
    repeat f_equal; lia.
Qed.

Lemma close_eyes_too_few_passes (device : Device) (config : Config)
  (eye : option string) (speed : string) :
  In eye [Some "left"; Some "right"; Some "both"] ->
  forall (k : nat) (st : State),
    Z.of_nat k * movement_speed speed < selected_excess eye st ->
    close_eyes k device config eye speed st = None.
Proof.
  intros Heye. pose proof (movement_speed_pos speed) as Hms.
  unfold close_eyes.
  induction k as [|k IH]; intros st Hk; [reflexivity|].
  destruct (close_eyes_body_step eye _ st Heye Hms) as [_ Hcont].
  destruct Hcont as [st' [Hbody [Hex _]]]; [lia|].
  simpl. rewrite Hbody. apply IH. lia.
Qed.

Lemma close_eyes_enough_passes (device : Device) (config : Config)
  (eye : option string) (speed : string) :
  In eye [Some "left"; Some "right"; Some "both"] ->
  forall (k : nat) (st : State),
    selected_excess eye st <= Z.of_nat (Datatypes.S k) * movement_speed speed ->
    close_eyes (Datatypes.S k) device config eye speed st
    = Some (close_eyes_result eye st).
Proof.
  intros Heye. pose proof (movement_speed_pos speed) as Hms.
  unfold close_eyes.
  induction k as [|k IH]; intros st Hk.
  - destruct (close_eyes_body_step eye _ st Heye Hms) as [Hbreak _].
    simpl. rewrite Hbreak by lia. reflexivity.
  - destruct (close_eyes_body_step eye _ st Heye Hms) as [Hbreak Hcont].
    destruct (Z_le_gt_dec (selected_excess eye st) (movement_speed speed))
      as [Hle|Hgt].
    + change (loop (close_eyes_body eye (movement_speed speed))
                (Datatypes.S (Datatypes.S k)) st)
        with (match close_eyes_body eye (movement_speed speed) st with
              | Break s' => Some s'
              | Continue s' =>
                  loop (close_eyes_body eye (movement_speed speed))
                    (Datatypes.S k) s'
              end).
      rewrite Hbreak by lia. reflexivity.
    + destruct Hcont as [st' [Hbody [Hex Hres]]]; [lia|].
      change (loop (close_eyes_body eye (movement_speed speed))
                (Datatypes.S (Datatypes.S k)) st)
        with (match close_eyes_body eye (movement_speed speed) st with
              | Break s' => Some s'
              | Continue s' =>
                  loop (close_eyes_body eye (movement_speed speed))
                    (Datatypes.S k) s'
              end).
      rewrite Hbody. rewrite <- Hres. apply IH. lia.
Qed.

(** X16.  The number of passes [close_eyes] makes.  Let [e] be how far the
    selected eye is above 2 (the higher of the two for ["both"]) and [s] the
    step of the speed (slow 1, medium 2, fast or unknown 4).  [close_eyes]
    does not return within [k] passes while [k * s < e], and returns on
    pass [k + 1] at the latest once [e <= (k + 1) * s]: it makes
    [max(1, ceil(e / s))] passes, sleeping one frame between two passes. *)
Theorem close_eyes_pass_count :
  forall (device : Device) (config : Config) (eye : option string)
         (speed : string) (st : State) (k : nat),
    In eye [Some "left"; Some "right"; Some "both"] ->
    (Z.of_nat k * movement_speed speed < selected_excess eye st ->
     close_eyes k device config eye speed st = None)
    /\ (selected_excess eye st
        <= Z.of_nat (Datatypes.S k) * movement_speed speed ->
        close_eyes (Datatypes.S k) device config eye speed st
        = Some (close_eyes_result eye st)).
Proof.
  intros device config eye speed st k Heye. split.
  - apply close_eyes_too_few_passes. exact Heye.
  - apply close_eyes_enough_passes. exact Heye.
Qed.

Lemma close_eyes_pass_count_witness :
  (Z.of_nat 7 * movement_speed "fast"
   < selected_excess (Some "both") (initial_state DEFAULT_RENDER_CONFIG) ->
   close_eyes 7 default_device DEFAULT_RENDER_CONFIG (Some "both") "fast"
     (initial_state DEFAULT_RENDER_CONFIG) = None)
  /\ (selected_excess (Some "both") (initial_state DEFAULT_RENDER_CONFIG)
      <= Z.of_nat 8 * movement_speed "fast" ->
      close_eyes 8 default_device DEFAULT_RENDER_CONFIG (Some "both") "fast"
        (initial_state DEFAULT_RENDER_CONFIG)
      = Some (close_eyes_result (Some "both")
                (initial_state DEFAULT_RENDER_CONFIG))).
Proof.
  apply (close_eyes_pass_count default_device DEFAULT_RENDER_CONFIG
           (Some "both") "fast" (initial_state DEFAULT_RENDER_CONFIG) 7).
  simpl. auto.
Defined.
